(** * spixels-pixel-push: the Spixels LED-strip adapter behind a PixelPusher server

    A shallow embedding of [spixels-pixel-push.cc]: the [SpixelsDevice]
    adapter (constructor, topology queries, [SetPixel], [FlushFrame]), the
    strip-type lookup [parseType] and the start-up code of [main].

    The libraries the program links against (spixels: [MultiSPI],
    [LEDStrip]; the PixelPusher server; libc) are not part of the program.
    Every call that crosses into spixels or the server, and every line
    written to stderr, is recorded as an [Event] in a trace that the code
    threads through a small state-and-failure monad.  The libc functions
    whose result decides a branch ([strcasecmp], [atoi], [sscanf]) are
    modelled by executable definitions in [LibC]; an [int] is a [Z]
    within 32 bits, and what [atoi] and [%d] deliver is brought into that
    range as the C library does it. *)

From Stdlib Require Import ZArith List String Ascii Bool Lia DecimalString.
Import ListNotations.
Local Open Scope Z_scope.

(* ================================================================== *)
(** * C library functions used by the program *)
(* ================================================================== *)

Module LibC.

(** A C string is modelled by the [string] of its characters; the
    terminating NUL is implicit.  A NUL inside a [string] ends the C
    string it stands for. *)

Definition code (c : ascii) : Z := Z.of_N (N_of_ascii c).

Definition isspace (c : ascii) : bool :=
  (code c =? 32) || ((9 <=? code c) && (code c <=? 13)).

Definition isdigit (c : ascii) : bool :=
  (48 <=? code c) && (code c <=? 57).

Definition isupper (c : ascii) : bool :=
  (65 <=? code c) && (code c <=? 90).

(** [tolower] in the "C" locale ([main] never calls [setlocale]). *)
Definition tolower (c : ascii) : ascii :=
  if isupper c then ascii_of_N (N_of_ascii c + 32) else c.

(** The characters of a C string: everything before the first NUL. *)
Fixpoint c_str (s : string) : string :=
  match s with
  | EmptyString => EmptyString
  | String c r => if code c =? 0 then EmptyString else String c (c_str r)
  end.

Fixpoint lowercase (s : string) : string :=
  match s with
  | EmptyString => EmptyString
  | String c r => String (tolower c) (lowercase r)
  end.

(** [strcasecmp]: walk both strings, comparing the lower-cased bytes,
    until they differ or the terminator has been compared; the result is
    the difference of the last pair compared. *)
Fixpoint strcasecmp (s1 s2 : string) : Z :=
  match s1, s2 with
  | EmptyString, EmptyString => 0
  | EmptyString, String c2 _ => 0 - code (tolower c2)
  | String c1 _, EmptyString => code (tolower c1) - 0
  | String c1 r1, String c2 r2 =>
      let d := code (tolower c1) - code (tolower c2) in
      if d =? 0 then (if code c1 =? 0 then 0 else strcasecmp r1 r2) else d
  end.

Fixpoint skip_space (s : string) : string :=
  match s with
  | String c r => if isspace c then skip_space r else s
  | EmptyString => s
  end.

(** Accumulate a run of decimal digits; returns the value and the rest. *)
Fixpoint digits (acc : Z) (s : string) : Z * string :=
  match s with
  | String c r =>
      if isdigit c then digits (10 * acc + (code c - 48)) r else (acc, s)
  | EmptyString => (acc, s)
  end.

(** A [long] has 64 bits and an [int] 32.  [strtol] stays within [long]
    by clamping; storing a [long] in an [int] keeps its low 32 bits. *)
Definition clamp_long (z : Z) : Z :=
  Z.max (- 2 ^ 63) (Z.min (2 ^ 63 - 1) z).

Definition to_int (z : Z) : Z :=
  (z + 2 ^ 31) mod 2 ^ 32 - 2 ^ 31.

(** [strtol(s, NULL, 10)]: optional white space, optional sign, decimal
    digits; anything after the digits is ignored and no digits give 0. *)
Definition strtol (s : string) : Z :=
  clamp_long
    match skip_space s with
    | String "-" r => - fst (digits 0 r)
    | String "+" r => fst (digits 0 r)
    | s' => fst (digits 0 s')
    end.

(** [atoi(s)] is [(int) strtol(s, NULL, 10)]: an [int], also for a digit
    string beyond the range of [int], where the C standard leaves the
    result open and the C library in use gives this one. *)
Definition atoi (s : string) : Z := to_int (strtol s).

(** One [%d] conversion of [scanf]. *)
Inductive Conversion :=
| Converted (v : Z) (rest : string)
| MatchingFailure
| InputFailure.          (* input ended before the conversion began *)

(** The digits are converted as by [strtol] and the result is stored in
    an [int]. *)
Definition signed_digits (neg : bool) (s : string) : Conversion :=
  match s with
  | String c _ =>
      if isdigit c
      then let '(v, rest) := digits 0 s in
           Converted (to_int (clamp_long (if neg then - v else v))) rest
      else MatchingFailure
  | EmptyString => MatchingFailure
  end.

Definition scan_d (s : string) : Conversion :=
  match skip_space s with
  | EmptyString => InputFailure
  | String "-" r => signed_digits true r
  | String "+" r => signed_digits false r
  | s' => signed_digits false s'
  end.

Definition EOF : Z := -1.

(** [sscanf(s, "%d,%d", &a, &b)]: the return value and the contents of
    the two [int] objects afterwards ([a0], [b0] are their contents
    before the call). *)
Definition sscanf_d_comma_d (s : string) (a0 b0 : Z) : Z * Z * Z :=
  match scan_d s with
  | InputFailure => (EOF, a0, b0)
  | MatchingFailure => (0, a0, b0)
  | Converted a rest =>
      match rest with
      | String "," rest' =>
          match scan_d rest' with
          | Converted b _ => (2, a, b)
          | _ => (1, a, b0)
          end
      | _ => (1, a, b0)
      end
  end.

(** Whether [sscanf(s, "%d,%d", ...)] returns 2. *)
Definition parses_both (s : string) : bool :=
  fst (fst (sscanf_d_comma_d s 0 0)) =? 2.

(** The two integers [sscanf(s, "%d,%d", ...)] stores when it returns 2. *)
Definition parsed_pair (s : string) : Z * Z :=
  let '(_, a, b) := sscanf_d_comma_d s 0 0 in (a, b).

End LibC.

(* ================================================================== *)
(** * Data *)
(* ================================================================== *)

(** The four strip constructors of spixels that [parseType] can return.
    A [StripFactory] is a pointer to one of them, or NULL ([None]). *)
Inductive StripFactoryFn :=
| CreateAPA102Strip
| CreateWS2801Strip
| CreateLPD6803Strip
| CreateLPD8806Strip.

Definition StripFactory := option StripFactoryFn.

(** [pp::PixelColor]: three [uint8_t] channels. *)
Record PixelColor := { red : Z; green : Z; blue : Z }.

(** Objects created by spixels are known to the program by pointer only.
    The n-th bus created is pointer [n], the n-th strip pointer [n]. *)
Definition MultiSPI_ptr := nat.
Definition LEDStrip_ptr := nat.

(** The members of [class SpixelsDevice], in declaration order.
    [strips_] is the array obtained from [new LEDStrip*[num_strips_]]. *)
Record SpixelsDevice := {
  num_strips_ : Z;
  strip_len_ : Z;
  strips_ : list LEDStrip_ptr;
  spi_ : MultiSPI_ptr
}.

(** The fields of [pp::PPOptions] that [main] assigns. *)
Record PPOptions := {
  network_interface : string;
  udp_packet_size : Z;
  group : Z;
  controller : Z;
  artnet_universe : Z;
  artnet_channel : Z
}.

(** Calls that leave the program, in the order they happen. *)
Inductive Event :=
| EvStderr (text : string)
| EvCreateDirectMultiSPI (mhz : Z)
| EvStripFactory (f : StripFactoryFn) (spi : MultiSPI_ptr) (pin count : Z)
| EvLEDStripSetPixel (strip : LEDStrip_ptr) (pixel r g b : Z)
| EvSendBuffers (spi : MultiSPI_ptr)
| EvStartPixelPusherServer (options : PPOptions) (device : SpixelsDevice).

Definition Trace := list Event.

(** What stops a computation other than returning. *)
Inductive Fault :=
| bad_array_new_length     (* thrown by [new T[n]] for n < 0 *)
| undefined_behaviour.     (* read past the end of [strips_] *)

Inductive Outcome (A : Type) :=
| Done (a : A)
| Raised (e : Fault).
Arguments Done {A} a.
Arguments Raised {A} e.

(** State (the trace so far) and failure. *)
Definition M (A : Type) : Type := Trace -> Outcome A * Trace.

Definition ret {A} (a : A) : M A := fun t => (Done a, t).

Definition bind {A B} (m : M A) (k : A -> M B) : M B :=
  fun t => match m t with
           | (Done a, t') => k a t'
           | (Raised e, t') => (Raised e, t')
           end.

Definition raise {A} (e : Fault) : M A := fun t => (Raised e, t).

Definition emit (e : Event) : M unit := fun t => (Done tt, t ++ [e]).

Declare Scope m_scope.
Delimit Scope m_scope with M.
Notation "x <- m ;; k" := (bind m (fun x => k))
  (at level 100, m at next level, right associativity) : m_scope.
Notation "m ;;; k" := (bind m (fun _ => k))
  (at level 100, right associativity) : m_scope.
Local Open Scope m_scope.

(* ================================================================== *)
(** * The libraries behind the adapter, as seen from the program *)
(* ================================================================== *)

Definition is_bus (e : Event) : bool :=
  match e with EvCreateDirectMultiSPI _ => true | _ => false end.

Definition is_strip (e : Event) : bool :=
  match e with EvStripFactory _ _ _ _ => true | _ => false end.

Definition is_stderr (e : Event) : bool :=
  match e with EvStderr _ => true | _ => false end.

Definition buses_created (t : Trace) : nat := List.length (filter is_bus t).
Definition strips_created (t : Trace) : nat := List.length (filter is_strip t).

(** [spixels::CreateDirectMultiSPI(mhz)]: a new bus object. *)
Definition CreateDirectMultiSPI (mhz : Z) : M MultiSPI_ptr :=
  fun t => (Done (buses_created t), t ++ [EvCreateDirectMultiSPI mhz]).

(** A call through a [StripFactory] pointer: a new strip object.  A call
    through NULL is undefined. *)
Definition call_factory (f : StripFactory) (spi : MultiSPI_ptr)
    (pin count : Z) : M LEDStrip_ptr :=
  match f with
  | None => raise undefined_behaviour
  | Some fn =>
      fun t => (Done (strips_created t), t ++ [EvStripFactory fn spi pin count])
  end.

(** [strip->SetPixel(pixel, r, g, b)]. *)
Definition LEDStrip_SetPixel (strip : LEDStrip_ptr) (pixel r g b : Z) : M unit :=
  emit (EvLEDStripSetPixel strip pixel r g b).

(** [spi->SendBuffers()]. *)
Definition MultiSPI_SendBuffers (spi : MultiSPI_ptr) : M unit :=
  emit (EvSendBuffers spi).

Definition fprintf_stderr (text : string) : M unit := emit (EvStderr text).

(** [new T[n]]: a negative length throws before anything is allocated.
    Memory is assumed sufficient for every non-negative length. *)
Definition new_array (n : Z) : M unit :=
  if n <? 0 then raise bad_array_new_length else ret tt.

(* ================================================================== *)
(** * Constants and text *)
(* ================================================================== *)

Definition kMaxUDPPacketSize : Z := 65507.
Definition kDefaultUDPPacketSize : Z := 1460.

Definition nl : string := String "010" EmptyString.
Definition tab : string := String "009" EmptyString.

(** [%d] of [printf]. *)
Definition dec (z : Z) : string :=
  DecimalString.NilZero.string_of_int (Z.to_int z).

Definition usage_line (progname : string) : string :=
  ("usage: " ++ progname ++ " <options>" ++ nl)%string.

Definition usage_options : string :=
  ("Options:" ++ nl
   ++ tab ++ "-T <type>     : One of APA102, LPD6803, LPD8806, WS2801; default: APA102" ++ nl
   ++ tab ++ "-c <clockspeed>: SPI clock-speed in Mhz [1..15]. Default: 4" ++ nl
   ++ tab ++ "-S <strips>   : Number of connected LED strips (default: 16)" ++ nl
   ++ tab ++ "-L <len>      : Length of LED strips (default: 144)" ++ nl
   ++ tab ++ "-i <iface>    : network interface, such as eth0, wlan0. Default eth0" ++ nl
   ++ tab ++ "-G <group>    : PixelPusher group (default: 0)" ++ nl
   ++ tab ++ "-C <controller> : PixelPusher controller (default: 0)" ++ nl
   ++ tab ++ "-a <artnet-universe,artnet-channel>: if used with artnet. Default 0,0" ++ nl
   ++ tab ++ "-u <udp-size> : Max UDP data/packet (default "
   ++ dec kDefaultUDPPacketSize ++ ")" ++ nl
   ++ tab ++ "                Best use the maximum that works with your network (up to "
   ++ dec kMaxUDPPacketSize ++ ")." ++ nl)%string.

Definition msg_artnet : string :=
  ("Artnet parameters must be <universe>,<channel>" ++ nl)%string.

Definition msg_type : string :=
  ("Invalid type of LED strip given with -T" ++ nl)%string.

Definition msg_clock : string :=
  ("SPI clock speed out of range [1..15]" ++ nl)%string.

Definition msg_root (progname : string) : string :=
  ("Must run as root to be able to access /dev/mem" ++ nl
   ++ "Prepend 'sudo' to the command:" ++ nl
   ++ tab ++ "sudo " ++ progname ++ " ..." ++ nl)%string.

(** [usage]: two lines to stderr, returns 1. *)
Definition usage (progname : string) : M Z :=
  fprintf_stderr (usage_line progname) ;;;
  fprintf_stderr usage_options ;;;
  ret 1.

(* ================================================================== *)
(** * Strip-type lookup *)
(* ================================================================== *)

Definition parseType (type : string) : StripFactory :=
  if LibC.strcasecmp type "APA102" =? 0 then Some CreateAPA102Strip
  else if LibC.strcasecmp type "WS2801" =? 0 then Some CreateWS2801Strip
  else if LibC.strcasecmp type "LPD6803" =? 0 then Some CreateLPD6803Strip
  else if LibC.strcasecmp type "LPD8806" =? 0 then Some CreateLPD8806Strip
  else None.

(** The lookup as the specification words it: one constructor per family
    name, whatever the letter case, and nothing for any other name. *)
Definition family_of_name (name : string) : StripFactory :=
  let n := LibC.lowercase (LibC.c_str name) in
  if String.eqb n "apa102" then Some CreateAPA102Strip
  else if String.eqb n "ws2801" then Some CreateWS2801Strip
  else if String.eqb n "lpd6803" then Some CreateLPD6803Strip
  else if String.eqb n "lpd8806" then Some CreateLPD8806Strip
  else None.

(** The locals of [main] that the option loop assigns. *)
Module Locals.
Record t := {
  pp_options : PPOptions;
  num_strips : Z;
  strip_len : Z;
  SPI_clock_mhz : Z;
  strip_creator : StripFactory
}.
End Locals.

(** What [main] ends in: it returns a status, or it stays in
    [for(;;) sleep(INT_MAX)] with the server running. *)
Inductive MainResult :=
| Return (status : Z)
| SleepForever.

(** One result of [getopt]: the option character and [optarg]. *)
Definition GetoptResult := (ascii * string)%type.

(** Calls the frame-delivery server can make on the device. *)
Inductive Call :=
| CallNumStrips
| CallNumPixelPerStrip
| CallSetPixel (strip pixel : Z) (col : PixelColor)
| CallFlushFrame.

(** One write, as a strip driver receives it. *)
Record PixelWrite := {
  to_strip : LEDStrip_ptr;
  at_pixel : Z;
  r_value : Z;
  g_value : Z;
  b_value : Z
}.

(* ================================================================== *)
(** * What the strips and the bus have received *)
(* ================================================================== *)

Definition write_of (e : Event) : list PixelWrite :=
  match e with
  | EvLEDStripSetPixel s p r g b =>
      [ {| to_strip := s; at_pixel := p; r_value := r; g_value := g; b_value := b |} ]
  | _ => []
  end.

(** The writes a strip driver has received: its staged buffer is a
    function of this list. *)
Definition staged (s : LEDStrip_ptr) (t : Trace) : list PixelWrite :=
  filter (fun w => Nat.eqb (to_strip w) s) (flat_map write_of t).

(** What a bus has seen: the commits so far, each with the writes it
    carried, and the writes staged since the last one. *)
Record BusView := {
  committed : list (list PixelWrite);
  pending : list PixelWrite
}.

(** Modelled from the spec: the Bus Controller (multi-spi.h is not part of
    the sources).  [SendBuffers] commits every pending per-strip buffer as
    one transaction; a write is pending from the moment the strip driver
    receives it until the next commit.  All strips of the program sit on
    its one bus. *)
Definition bus_step (spi : MultiSPI_ptr) (v : BusView) (e : Event) : BusView :=
  match e with
  | EvLEDStripSetPixel _ _ _ _ _ =>
      {| committed := committed v; pending := pending v ++ write_of e |}
  | EvSendBuffers spi' =>
      if Nat.eqb spi' spi
      then {| committed := committed v ++ [pending v]; pending := [] |}
      else v
  | _ => v
  end.

Definition bus_view (spi : MultiSPI_ptr) (t : Trace) : BusView :=
  fold_left (bus_step spi) t {| committed := []; pending := [] |}.

(** No bus and no strip was created in [t]. *)
Definition constructs_nothing (t : Trace) : bool :=
  forallb (fun e => negb (is_bus e || is_strip e)) t.

(** The effect of one option on [SPI_clock_mhz], on the type name last
    given and on [strip_creator]. *)
Definition clock_step (c : Z) (o : GetoptResult) : Z :=
  if Ascii.eqb (fst o) "c" then LibC.atoi (snd o) else c.

Definition type_step (ty : option string) (o : GetoptResult) : option string :=
  if Ascii.eqb (fst o) "T" then Some (snd o) else ty.

Definition creator_step (f : StripFactory) (o : GetoptResult) : StripFactory :=
  if Ascii.eqb (fst o) "T" then parseType (snd o) else f.

(** The value [SPI_clock_mhz] has when every option has been read. *)
Definition configured_clock (opts : list GetoptResult) : Z :=
  fold_left clock_step opts 4.

(** The argument of the last [-T], if there is one. *)
Definition configured_type (opts : list GetoptResult) : option string :=
  fold_left type_step opts None.

(** An exit before construction: the given status and only text on
    stderr. *)
Definition refused {A} (r : Outcome A * Trace) (status : A) (t : Trace) : Prop :=
  exists msgs, r = (Done status, t ++ msgs) /\
               msgs <> [] /\ forallb is_stderr msgs = true.

(** ** Reading the command line as a whole *)

(** The option letters of the [switch]. *)
Definition known_flag (opt : ascii) : bool :=
  match opt with
  | "T"%char | "c"%char | "S"%char | "L"%char | "i"%char
  | "u"%char | "G"%char | "C"%char | "a"%char => true
  | _ => false
  end.

(** An option the loop goes past: a known letter, and for [-a] an
    argument that gives two integers. *)
Definition accepts (o : GetoptResult) : bool :=
  known_flag (fst o) &&
  (if Ascii.eqb (fst o) "a" then LibC.parses_both (snd o) else true).

(** The argument of the last occurrence of a letter. *)
Definition last_step (flag : ascii) (r : option string) (o : GetoptResult)
    : option string :=
  if Ascii.eqb (fst o) flag then Some (snd o) else r.

Definition last_arg (flag : ascii) (opts : list GetoptResult) : option string :=
  fold_left (last_step flag) opts None.

(** A setting read from the last occurrence of its letter, or left at
    its initial value. *)
Definition setting {A} (flag : ascii) (parse : string -> A) (initial : A)
    (opts : list GetoptResult) : A :=
  match last_arg flag opts with
  | Some arg => parse arg
  | None => initial
  end.

Definition setting_step {A} (flag : ascii) (parse : string -> A) (v : A)
    (o : GetoptResult) : A :=
  if Ascii.eqb (fst o) flag then parse (snd o) else v.

(** The locals after one accepted option. *)
Definition apply_opt (l : Locals.t) (o : GetoptResult) : Locals.t :=
  {| Locals.pp_options :=
       {| network_interface :=
            setting_step "i" (fun s => s) (network_interface (Locals.pp_options l)) o;
          udp_packet_size :=
            setting_step "u" LibC.atoi (udp_packet_size (Locals.pp_options l)) o;
          group := setting_step "G" LibC.atoi (group (Locals.pp_options l)) o;
          controller :=
            setting_step "C" LibC.atoi (controller (Locals.pp_options l)) o;
          artnet_universe :=
            setting_step "a" (fun s => fst (LibC.parsed_pair s))
              (artnet_universe (Locals.pp_options l)) o;
          artnet_channel :=
            setting_step "a" (fun s => snd (LibC.parsed_pair s))
              (artnet_channel (Locals.pp_options l)) o |};
     Locals.num_strips := setting_step "S" LibC.atoi (Locals.num_strips l) o;
     Locals.strip_len := setting_step "L" LibC.atoi (Locals.strip_len l) o;
     Locals.SPI_clock_mhz := setting_step "c" LibC.atoi (Locals.SPI_clock_mhz l) o;
     Locals.strip_creator := setting_step "T" parseType (Locals.strip_creator l) o |}.

(** The options [main] hands to the server, read off the command line;
    [library] is a default-constructed [PPOptions]. *)
Definition configured_options (library : PPOptions) (opts : list GetoptResult)
    : PPOptions :=
  {| network_interface := setting "i" (fun s => s) "eth0"%string opts;
     udp_packet_size := setting "u" LibC.atoi (udp_packet_size library) opts;
     group := setting "G" LibC.atoi (group library) opts;
     controller := setting "C" LibC.atoi (controller library) opts;
     artnet_universe := setting "a" (fun s => fst (LibC.parsed_pair s)) (-1) opts;
     artnet_channel := setting "a" (fun s => snd (LibC.parsed_pair s)) (-1) opts |}.

(** ** Reading the trace *)

(** The call that created strip [s], and the one that created bus [b]. *)
Definition created_strip (t : Trace) (s : LEDStrip_ptr) : option Event :=
  nth_error (filter is_strip t) s.

Definition created_bus (t : Trace) (b : MultiSPI_ptr) : option Event :=
  nth_error (filter is_bus t) b.

Definition is_flush (c : Call) : bool :=
  match c with CallFlushFrame => true | _ => false end.

(** What the destructor hands back to the libraries and the heap.  The
    trace of [Event]s does not record releases; the destructor is
    modelled on its own. *)
Inductive Release :=
| DeleteStrip (s : LEDStrip_ptr)
| DeleteArray
| DeleteSPI (spi : MultiSPI_ptr).

Definition is_strip_release (r : Release) : bool :=
  match r with DeleteStrip _ => true | _ => false end.

(** Modelled from the spec: the constructor of [pp::PPOptions]
    (pp-server.h is not part of the sources).  The table of external
    interfaces gives the defaults: interface eth0, group 0, controller 0,
    secondary-protocol addressing disabled (-1,-1), packet size 1460. *)
Definition spec_PPOptions : PPOptions :=
  {| network_interface := "eth0"; udp_packet_size := 1460; group := 0;
     controller := 0; artnet_universe := -1; artnet_channel := -1 |}.

(** Modelled from the spec: [pp::StartPixelPusherServer] (pp-server.h is
    not part of the sources).  The maximum outbound packet size is bounded
    by the practical IPv4 UDP payload ceiling, 65507 bytes: the server
    does not start with a larger one.  [binds] is whether its start-up
    succeeds otherwise. *)
Definition spec_server (binds : bool) (o : PPOptions) (d : SpixelsDevice)
    : bool :=
  (udp_packet_size o <=? 65507) && binds.

(** Pin table, library defaults and server used to run the program on
    concrete inputs. *)
Definition bench_pins (connector : Z) : Z := 100 + connector.

Definition bench_options : PPOptions :=
  {| network_interface := "lo"; udp_packet_size := 1460; group := 0;
     controller := 0; artnet_universe := 0; artnet_channel := 0 |}.

Definition bench_server (o : PPOptions) (d : SpixelsDevice) : bool := true.

(** The device the constructor returns for two strips of three pixels
    when nothing was created before. *)
Definition bench_device : SpixelsDevice :=
  {| num_strips_ := 2; strip_len_ := 3; strips_ := [0%nat; 1%nat]; spi_ := 0%nat |}.

Definition pure_red : PixelColor := {| red := 255; green := 0; blue := 0 |}.
Definition pure_green : PixelColor := {| red := 0; green := 255; blue := 0 |}.

(* ================================================================== *)
(** * The program *)
(* ================================================================== *)

Section Program.

(** [spixels::MultiSPI::SPIPinForConnector]: the hardware's table. *)
Variable SPIPinForConnector : Z -> Z.

(** A default-constructed [pp::PPOptions]. *)
Variable PPOptions_default : PPOptions.

(** Whether [pp::StartPixelPusherServer] succeeds. *)
Variable server_starts : PPOptions -> SpixelsDevice -> bool.

Definition StartPixelPusherServer (o : PPOptions) (d : SpixelsDevice) : M bool :=
  fun t => (Done (server_starts o d), t ++ [EvStartPixelPusherServer o d]).

(** ** class SpixelsDevice *)

(** The constructor's loop [for (int i = 0; i < num_strips_; ++i)], with
    [remaining] iterations to go; [i + 1 <= num_strips_] never overflows. *)
Fixpoint make_strips (remaining : nat) (i : Z) (strip_factory : StripFactory)
    (spi : MultiSPI_ptr) (strip_len : Z) : M (list LEDStrip_ptr) :=
  match remaining with
  | O => ret []
  | S k =>
      s <- call_factory strip_factory spi (SPIPinForConnector (i + 1)) strip_len ;;
      rest <- make_strips k (i + 1) strip_factory spi strip_len ;;
      ret (s :: rest)
  end.

(** Members are initialised in declaration order: the array of
    [num_strips_] strip pointers first, the bus second; then the body
    fills the array. *)
Definition SpixelsDevice_ctor (spi_mhz : Z) (strip_factory : StripFactory)
    (num_strips strip_len : Z) : M SpixelsDevice :=
  new_array num_strips ;;;
  spi <- CreateDirectMultiSPI spi_mhz ;;
  strips <- make_strips (Z.to_nat num_strips) 0 strip_factory spi strip_len ;;
  ret {| num_strips_ := num_strips; strip_len_ := strip_len;
         strips_ := strips; spi_ := spi |}.

Definition num_strips (this : SpixelsDevice) : Z := num_strips_ this.

Definition num_pixel_per_strip (this : SpixelsDevice) : Z := strip_len_ this.

Definition SetPixel (this : SpixelsDevice) (strip pixel : Z) (col : PixelColor)
    : M unit :=
  if (strip <? 0) || (strip >=? num_strips_ this) then ret tt
  else match nth_error (strips_ this) (Z.to_nat strip) with
       | Some s => LEDStrip_SetPixel s pixel (red col) (green col) (blue col)
       | None => raise undefined_behaviour
       end.

Definition FlushFrame (this : SpixelsDevice) : M unit :=
  MultiSPI_SendBuffers (spi_ this).

(** The array has [num_strips_] entries. *)
Definition array_sized (this : SpixelsDevice) : Prop :=
  Z.of_nat (List.length (strips_ this)) = num_strips_ this.

(** The destructor's loop [for (int i = 0; i < num_strips_; ++i)
    delete strips_[i]], with [remaining] iterations to go. *)
Fixpoint delete_strips (remaining : nat) (i : Z) (this : SpixelsDevice)
    : Outcome (list Release) :=
  match remaining with
  | O => Done []
  | S k =>
      match nth_error (strips_ this) (Z.to_nat i) with
      | None => Raised undefined_behaviour
      | Some s =>
          match delete_strips k (i + 1) this with
          | Done rest => Done (DeleteStrip s :: rest)
          | Raised e => Raised e
          end
      end
  end.

(** [~SpixelsDevice]: the strips, then the array, then the bus. *)
Definition SpixelsDevice_dtor (this : SpixelsDevice) : Outcome (list Release) :=
  match delete_strips (Z.to_nat (num_strips_ this)) 0 this with
  | Done released => Done (released ++ [DeleteArray; DeleteSPI (spi_ this)])
  | Raised e => Raised e
  end.

(** One call of the server on the device: the object afterwards (no
    method assigns a member) and the value returned, if any. *)
Definition invoke (this : SpixelsDevice) (c : Call)
    : M (SpixelsDevice * option Z) :=
  match c with
  | CallNumStrips => ret (this, Some (num_strips this))
  | CallNumPixelPerStrip => ret (this, Some (num_pixel_per_strip this))
  | CallSetPixel strip pixel col =>
      SetPixel this strip pixel col ;;; ret (this, None)
  | CallFlushFrame => FlushFrame this ;;; ret (this, None)
  end.

Fixpoint serve (this : SpixelsDevice) (calls : list Call)
    : M (SpixelsDevice * list (option Z)) :=
  match calls with
  | [] => ret (this, [])
  | c :: rest =>
      r <- invoke this c ;;
      rs <- serve (fst r) rest ;;
      ret (fst rs, snd r :: snd rs)
  end.

(** The write a call stages, if it stages one. *)
Definition staged_by (this : SpixelsDevice) (c : Call) : list PixelWrite :=
  match c with
  | CallSetPixel strip pixel col =>
      if (0 <=? strip) && (strip <? num_strips_ this)
      then match nth_error (strips_ this) (Z.to_nat strip) with
           | Some s => [ {| to_strip := s; at_pixel := pixel;
                            r_value := red col; g_value := green col;
                            b_value := blue col |} ]
           | None => []
           end
      else []
  | _ => []
  end.

Definition is_set_pixel (c : Call) : bool :=
  match c with CallSetPixel _ _ _ => true | _ => false end.

Definition event_of_write (w : PixelWrite) : Event :=
  EvLEDStripSetPixel (to_strip w) (at_pixel w) (r_value w) (g_value w) (b_value w).

(** The calls a method makes on the libraries, and what it returns. *)
Definition emitted (this : SpixelsDevice) (c : Call) : Trace :=
  match c with
  | CallSetPixel _ _ _ => map event_of_write (staged_by this c)
  | CallFlushFrame => [EvSendBuffers (spi_ this)]
  | _ => []
  end.

Definition answer (this : SpixelsDevice) (c : Call) : option Z :=
  match c with
  | CallNumStrips => Some (num_strips_ this)
  | CallNumPixelPerStrip => Some (strip_len_ this)
  | _ => None
  end.

(** ** main *)

Definition with_network_interface (o : PPOptions) (v : string) : PPOptions :=
  {| network_interface := v; udp_packet_size := udp_packet_size o;
     group := group o; controller := controller o;
     artnet_universe := artnet_universe o; artnet_channel := artnet_channel o |}.

Definition with_udp_packet_size (o : PPOptions) (v : Z) : PPOptions :=
  {| network_interface := network_interface o; udp_packet_size := v;
     group := group o; controller := controller o;
     artnet_universe := artnet_universe o; artnet_channel := artnet_channel o |}.

Definition with_group (o : PPOptions) (v : Z) : PPOptions :=
  {| network_interface := network_interface o; udp_packet_size := udp_packet_size o;
     group := v; controller := controller o;
     artnet_universe := artnet_universe o; artnet_channel := artnet_channel o |}.

Definition with_controller (o : PPOptions) (v : Z) : PPOptions :=
  {| network_interface := network_interface o; udp_packet_size := udp_packet_size o;
     group := group o; controller := v;
     artnet_universe := artnet_universe o; artnet_channel := artnet_channel o |}.

Definition with_artnet (o : PPOptions) (universe channel : Z) : PPOptions :=
  {| network_interface := network_interface o; udp_packet_size := udp_packet_size o;
     group := group o; controller := controller o;
     artnet_universe := universe; artnet_channel := channel |}.

Definition with_pp_options (l : Locals.t) (o : PPOptions) : Locals.t :=
  {| Locals.pp_options := o; Locals.num_strips := Locals.num_strips l;
     Locals.strip_len := Locals.strip_len l;
     Locals.SPI_clock_mhz := Locals.SPI_clock_mhz l;
     Locals.strip_creator := Locals.strip_creator l |}.

Definition with_num_strips (l : Locals.t) (v : Z) : Locals.t :=
  {| Locals.pp_options := Locals.pp_options l; Locals.num_strips := v;
     Locals.strip_len := Locals.strip_len l;
     Locals.SPI_clock_mhz := Locals.SPI_clock_mhz l;
     Locals.strip_creator := Locals.strip_creator l |}.

Definition with_strip_len (l : Locals.t) (v : Z) : Locals.t :=
  {| Locals.pp_options := Locals.pp_options l;
     Locals.num_strips := Locals.num_strips l; Locals.strip_len := v;
     Locals.SPI_clock_mhz := Locals.SPI_clock_mhz l;
     Locals.strip_creator := Locals.strip_creator l |}.

Definition with_SPI_clock_mhz (l : Locals.t) (v : Z) : Locals.t :=
  {| Locals.pp_options := Locals.pp_options l;
     Locals.num_strips := Locals.num_strips l;
     Locals.strip_len := Locals.strip_len l; Locals.SPI_clock_mhz := v;
     Locals.strip_creator := Locals.strip_creator l |}.

Definition with_strip_creator (l : Locals.t) (v : StripFactory) : Locals.t :=
  {| Locals.pp_options := Locals.pp_options l;
     Locals.num_strips := Locals.num_strips l;
     Locals.strip_len := Locals.strip_len l;
     Locals.SPI_clock_mhz := Locals.SPI_clock_mhz l;
     Locals.strip_creator := v |}.

(** The body of the [switch]: the locals afterwards, or the status [main]
    returns with. *)
Definition switch_opt (progname : string) (l : Locals.t) (opt : ascii)
    (optarg : string) : M (Locals.t + Z) :=
  match opt with
  | "T"%char => ret (inl (with_strip_creator l (parseType optarg)))
  | "c"%char => ret (inl (with_SPI_clock_mhz l (LibC.atoi optarg)))
  | "S"%char => ret (inl (with_num_strips l (LibC.atoi optarg)))
  | "L"%char => ret (inl (with_strip_len l (LibC.atoi optarg)))
  | "i"%char =>
      ret (inl (with_pp_options l
                  (with_network_interface (Locals.pp_options l) optarg)))
  | "u"%char =>
      ret (inl (with_pp_options l
                  (with_udp_packet_size (Locals.pp_options l) (LibC.atoi optarg))))
  | "G"%char =>
      ret (inl (with_pp_options l
                  (with_group (Locals.pp_options l) (LibC.atoi optarg))))
  | "C"%char =>
      ret (inl (with_pp_options l
                  (with_controller (Locals.pp_options l) (LibC.atoi optarg))))
  | "a"%char =>
      let '(n, universe, channel) :=
        LibC.sscanf_d_comma_d optarg
          (artnet_universe (Locals.pp_options l))
          (artnet_channel (Locals.pp_options l)) in
      if negb (2 =? n)
      then fprintf_stderr msg_artnet ;;; ret (inr 1)
      else ret (inl (with_pp_options l
                       (with_artnet (Locals.pp_options l) universe channel)))
  | _ => status <- usage progname ;; ret (inr status)
  end.

(** [while ((opt = getopt(...)) != -1) switch (opt) ...] over the results
    [getopt] delivers for the command line, in order.  What [getopt]
    itself prints for an option it does not know is not recorded. *)
Fixpoint getopt_loop (progname : string) (opts : list GetoptResult)
    (l : Locals.t) : M (Locals.t + Z) :=
  match opts with
  | [] => ret (inl l)
  | (opt, optarg) :: rest =>
      r <- switch_opt progname l opt optarg ;;
      match r with
      | inl l' => getopt_loop progname rest l'
      | inr status => ret (inr status)
      end
  end.

Definition initial_locals : Locals.t :=
  {| Locals.pp_options :=
       with_network_interface (with_artnet PPOptions_default (-1) (-1)) "eth0";
     Locals.num_strips := 16;
     Locals.strip_len := 144;
     Locals.SPI_clock_mhz := 4;
     Locals.strip_creator := Some CreateAPA102Strip |}.

(** [main], given [argv[0]], the results of [getopt] and [getuid()].  An
    exception leaving the constructor is not caught. *)
Definition main (progname : string) (opts : list GetoptResult) (uid : Z)
    : M MainResult :=
  r <- getopt_loop progname opts initial_locals ;;
  match r with
  | inr status => ret (Return status)
  | inl l =>
      match Locals.strip_creator l with
      | None => fprintf_stderr msg_type ;;; ret (Return 1)
      | Some _ =>
          if (Locals.SPI_clock_mhz l <? 1) || (Locals.SPI_clock_mhz l >? 15)
          then fprintf_stderr msg_clock ;;; ret (Return 1)
          else if negb (uid =? 0)
          then fprintf_stderr (msg_root progname) ;;; ret (Return 1)
          else
            pixel_strips <- SpixelsDevice_ctor (Locals.SPI_clock_mhz l)
                              (Locals.strip_creator l) (Locals.num_strips l)
                              (Locals.strip_len l) ;;
            started <- StartPixelPusherServer (Locals.pp_options l) pixel_strips ;;
            if negb started then ret (Return 1) else ret SleepForever
      end
  end.

(* ================================================================== *)
(** * The adapter: construction *)
(* ================================================================== *)

Lemma strips_created_snoc_strip t f spi pin count :
  strips_created (t ++ [EvStripFactory f spi pin count]) = S (strips_created t).
Proof.
  unfold strips_created. rewrite filter_app, length_app. simpl.
  now rewrite Nat.add_1_r.
Qed.

Lemma created_app_stderr t msgs :
  forallb is_stderr msgs = true ->
  buses_created (t ++ msgs) = buses_created t /\
  strips_created (t ++ msgs) = strips_created t.
Proof.
  intros H. unfold buses_created, strips_created.
  rewrite !filter_app, !length_app.
  assert (E : filter is_bus msgs = [] /\ filter is_strip msgs = []).
  { induction msgs as [|e msgs IH]; [now split|].
    simpl in H. apply andb_true_iff in H as [He Hm].
    destruct e; try discriminate He. simpl. now apply IH. }
  destruct E as [-> ->]. simpl. now rewrite !Nat.add_0_r.
Qed.

Lemma stderr_constructs_nothing msgs :
  forallb is_stderr msgs = true -> constructs_nothing msgs = true.
Proof.
  unfold constructs_nothing. intros H.
  rewrite forallb_forall in *. intros e He. specialize (H e He).
  now destruct e.
Qed.

(** The loop of the constructor, started at index [i] with a callable
    factory: one factory call per index, in increasing order. *)
Lemma make_strips_run n : forall i f spi len t,
  make_strips n i (Some f) spi len t =
  (Done (seq (strips_created t) n),
   t ++ map (fun k => EvStripFactory f spi
                        (SPIPinForConnector (i + Z.of_nat k)) len)
            (seq 1 n)).
Proof.
  induction n as [|n IH]; intros i f spi len t.
  - simpl. unfold ret. now rewrite app_nil_r.
  - cbn [make_strips]. unfold bind at 1. cbn [call_factory].
    unfold bind at 1. rewrite IH. unfold ret.
    rewrite strips_created_snoc_strip, <- app_assoc.
    cbn [seq map app]. rewrite <- (seq_shift n 1), map_map.
    f_equal. f_equal. f_equal.
    apply map_ext. intros k. do 2 f_equal. lia.
Qed.

(** The loop with a NULL factory only returns when it has nothing to do. *)
Lemma make_strips_null n i spi len t strips t' :
  make_strips n i None spi len t = (Done strips, t') -> n = O /\ strips = [].
Proof.
  destruct n as [|n]; simpl; unfold ret, bind, raise; simpl; intros H.
  - now inversion H.
  - discriminate H.
Qed.

(** What the constructor does for a non-negative strip count. *)
Lemma ctor_run c f N L t :
  0 <= N ->
  SpixelsDevice_ctor c (Some f) N L t =
  (Done {| num_strips_ := N; strip_len_ := L;
           strips_ := seq (strips_created t) (Z.to_nat N);
           spi_ := buses_created t |},
   t ++ EvCreateDirectMultiSPI c
     :: map (fun k => EvStripFactory f (buses_created t)
                        (SPIPinForConnector (Z.of_nat k)) L)
            (seq 1 (Z.to_nat N))).
Proof.
  intros HN. unfold SpixelsDevice_ctor, new_array.
  destruct (Z.ltb_spec N 0) as [Hneg|_]; [lia|].
  unfold bind at 1. unfold ret at 1.
  unfold bind at 1. unfold CreateDirectMultiSPI.
  unfold bind at 1. rewrite make_strips_run. unfold ret.
  assert (Hs : strips_created (t ++ [EvCreateDirectMultiSPI c]) = strips_created t).
  { unfold strips_created. rewrite filter_app, length_app. simpl.
    now rewrite Nat.add_0_r. }
  rewrite Hs, <- app_assoc. reflexivity.
Qed.

(** A negative strip count: the array allocation throws, nothing else
    has happened. *)
Lemma ctor_negative c f N L t :
  N < 0 -> SpixelsDevice_ctor c f N L t = (Raised bad_array_new_length, t).
Proof.
  intros HN. unfold SpixelsDevice_ctor, new_array.
  destruct (Z.ltb_spec N 0) as [_|Hpos]; [reflexivity|lia].
Qed.

(** Whatever the constructor returns has the members it was given and an
    array of that many strips. *)
Lemma ctor_returns c f N L t d t' :
  SpixelsDevice_ctor c f N L t = (Done d, t') ->
  0 <= N /\ num_strips_ d = N /\ strip_len_ d = L /\ array_sized d.
Proof.
  intros H.
  destruct (Z.ltb_spec N 0) as [Hneg|Hpos].
  { rewrite ctor_negative in H by assumption. discriminate H. }
  split; [assumption|].
  destruct f as [f|].
  - rewrite ctor_run in H by assumption. inversion H; subst; clear H.
    unfold array_sized. cbn. rewrite length_seq. repeat split. lia.
  - unfold SpixelsDevice_ctor, new_array in H.
    destruct (Z.ltb_spec N 0) as [Hneg|_]; [lia|].
    unfold bind at 1 in H. unfold ret at 1 in H.
    unfold bind at 1 in H. unfold CreateDirectMultiSPI in H.
    unfold bind at 1 in H.
    destruct (make_strips (Z.to_nat N) 0 None (buses_created t) L
                (t ++ [EvCreateDirectMultiSPI c])) as [[strips|e] t1] eqn:E;
      [|discriminate H].
    apply make_strips_null in E as [E0 ->].
    unfold ret in H. inversion H; subst; clear H.
    unfold array_sized. cbn. repeat split. lia.
Qed.

(* ================================================================== *)
(** * The adapter: pixel writes and flushes *)
(* ================================================================== *)

Lemma array_lookup this strip :
  array_sized this -> 0 <= strip < num_strips_ this ->
  exists s, nth_error (strips_ this) (Z.to_nat strip) = Some s.
Proof.
  unfold array_sized. intros Hlen Hin.
  destruct (nth_error (strips_ this) (Z.to_nat strip)) as [s|] eqn:E.
  - now exists s.
  - apply nth_error_None in E. lia.
Qed.

Lemma SetPixel_outside this strip pixel col t :
  strip < 0 \/ num_strips_ this <= strip ->
  SetPixel this strip pixel col t = (Done tt, t).
Proof.
  intros H. unfold SetPixel.
  destruct (Z.ltb_spec strip 0) as [|Hge]; [reflexivity|].
  destruct (Z.geb_spec strip (num_strips_ this)); [reflexivity|lia].
Qed.

Lemma SetPixel_inside this strip pixel col t s :
  0 <= strip < num_strips_ this ->
  nth_error (strips_ this) (Z.to_nat strip) = Some s ->
  SetPixel this strip pixel col t =
  (Done tt, t ++ [EvLEDStripSetPixel s pixel (red col) (green col) (blue col)]).
Proof.
  intros Hin Hs. unfold SetPixel.
  destruct (Z.ltb_spec strip 0) as [|_]; [lia|].
  destruct (Z.geb_spec strip (num_strips_ this)) as [|_]; [lia|].
  cbn [orb]. now rewrite Hs.
Qed.

(** [SetPixel] on a device whose array is as long as [num_strips_]
    returns, having made exactly the calls [emitted] lists. *)
Lemma SetPixel_run this strip pixel col t :
  array_sized this ->
  SetPixel this strip pixel col t =
  (Done tt, t ++ emitted this (CallSetPixel strip pixel col)).
Proof.
  intros Hsz. cbn [emitted staged_by].
  destruct (Z.leb_spec 0 strip) as [H0|H0];
    [destruct (Z.ltb_spec strip (num_strips_ this)) as [H1|H1]|]; cbn [andb].
  - destruct (array_lookup this strip Hsz (conj H0 H1)) as [s Hs].
    rewrite Hs. cbn. now apply SetPixel_inside.
  - cbn. rewrite app_nil_r. apply SetPixel_outside. lia.
  - cbn. rewrite app_nil_r. apply SetPixel_outside. lia.
Qed.

Lemma invoke_run this c t :
  array_sized this ->
  invoke this c t = (Done (this, answer this c), t ++ emitted this c).
Proof.
  intros Hsz. destruct c; cbn [invoke answer].
  - cbn. unfold ret. now rewrite app_nil_r.
  - cbn. unfold ret. now rewrite app_nil_r.
  - unfold bind. now rewrite SetPixel_run.
  - reflexivity.
Qed.

(** Any sequence of calls runs to the end, leaves the object as it was,
    answers every query from the two members and makes the calls
    [emitted] lists, in order. *)
Lemma serve_run this calls : forall t,
  array_sized this ->
  serve this calls t =
  (Done (this, map (answer this) calls), t ++ flat_map (emitted this) calls).
Proof.
  induction calls as [|c calls IH]; intros t Hsz.
  - cbn. unfold ret. now rewrite app_nil_r.
  - cbn [serve]. unfold bind at 1. rewrite invoke_run by assumption.
    cbn [fst snd]. unfold bind at 1. rewrite IH by assumption.
    unfold ret. cbn [fst snd map flat_map]. now rewrite app_assoc.
Qed.

Lemma staged_app s t1 t2 : staged s (t1 ++ t2) = staged s t1 ++ staged s t2.
Proof. unfold staged. now rewrite flat_map_app, filter_app. Qed.

Lemma bus_view_app spi t1 t2 :
  bus_view spi (t1 ++ t2) = fold_left (bus_step spi) t2 (bus_view spi t1).
Proof. unfold bus_view. apply fold_left_app. Qed.

(** Writes alone move nothing to the committed side of the bus. *)
Lemma bus_view_writes spi ws : forall v,
  fold_left (bus_step spi) (map event_of_write ws) v =
  {| committed := committed v; pending := pending v ++ ws |}.
Proof.
  induction ws as [|w ws IH]; intros v.
  - cbn. rewrite app_nil_r. now destruct v.
  - cbn [map fold_left]. rewrite IH. cbn. destruct w; cbn.
    now rewrite <- app_assoc.
Qed.

Lemma emitted_set_pixels this calls :
  forallb is_set_pixel calls = true ->
  flat_map (emitted this) calls =
  map event_of_write (flat_map (staged_by this) calls).
Proof.
  induction calls as [|c calls IH]; [reflexivity|].
  cbn [forallb flat_map]. intros H. apply andb_true_iff in H as [Hc Hcs].
  rewrite map_app, IH by assumption.
  destruct c; try discriminate Hc. reflexivity.
Qed.

Lemma flat_map_snoc {A B} (f : A -> list B) l x :
  flat_map f (l ++ [x]) = flat_map f l ++ f x.
Proof. rewrite flat_map_app. cbn. now rewrite app_nil_r. Qed.

(* ================================================================== *)
(** * main: the option loop *)
(* ================================================================== *)

Lemma sscanf_return_value s a b a' b' :
  fst (fst (LibC.sscanf_d_comma_d s a b)) =
  fst (fst (LibC.sscanf_d_comma_d s a' b')).
Proof.
  unfold LibC.sscanf_d_comma_d.
  destruct (LibC.scan_d s) as [v rest| |]; try reflexivity.
  destruct rest as [|c rest']; try reflexivity.
  destruct c as [[] [] [] [] [] [] [] []]; try reflexivity.
  destruct (LibC.scan_d rest'); reflexivity.
Qed.

Lemma usage_run progname t :
  usage progname t =
  (Done 1, t ++ [EvStderr (usage_line progname); EvStderr usage_options]).
Proof.
  unfold usage, bind, fprintf_stderr, emit, ret.
  now rewrite <- app_assoc.
Qed.

(** One round of the [switch]: either the locals are updated and nothing
    else happens, or the program is on its way out with status 1. *)
Lemma switch_opt_cases progname l opt optarg t :
  (exists l',
      switch_opt progname l opt optarg t = (Done (inl l'), t) /\
      Locals.SPI_clock_mhz l' =
        (if Ascii.eqb opt "c" then LibC.atoi optarg else Locals.SPI_clock_mhz l) /\
      Locals.strip_creator l' =
        (if Ascii.eqb opt "T" then parseType optarg else Locals.strip_creator l) /\
      (opt = "a"%char -> LibC.parses_both optarg = true))
  \/ refused (switch_opt progname l opt optarg t) (inr 1) t.
Proof.
  unfold refused.
  destruct opt as [[] [] [] [] [] [] [] []];
    try (right; cbv beta iota delta [switch_opt]; unfold bind;
         rewrite usage_run; unfold ret; eexists;
         split; [reflexivity|split; [discriminate|reflexivity]]);
    try (left; eexists; split; [reflexivity|];
         split; [reflexivity|]; split; [reflexivity|]; discriminate).
  (* -a *)
  cbv beta iota delta [switch_opt].
  destruct (LibC.sscanf_d_comma_d optarg
              (artnet_universe (Locals.pp_options l))
              (artnet_channel (Locals.pp_options l)))
    as [[n universe] channel] eqn:E.
  destruct (Z.eqb_spec 2 n) as [Hn|Hn]; cbn [negb].
  - left. eexists. split; [reflexivity|].
    split; [reflexivity|]. split; [reflexivity|].
    intros _. unfold LibC.parses_both.
    rewrite (sscanf_return_value optarg 0 0
               (artnet_universe (Locals.pp_options l))
               (artnet_channel (Locals.pp_options l))), E.
    cbn. subst n. reflexivity.
  - right. exists [EvStderr msg_artnet]. split; [reflexivity|].
    split; [discriminate|reflexivity].
Qed.

Lemma getopt_loop_cons progname opt optarg rest l t :
  getopt_loop progname ((opt, optarg) :: rest) l t =
  match switch_opt progname l opt optarg t with
  | (Done (inl l'), t') => getopt_loop progname rest l' t'
  | (Done (inr status), t') => (Done (inr status), t')
  | (Raised e, t') => (Raised e, t')
  end.
Proof.
  cbn [getopt_loop]. unfold bind.
  destruct (switch_opt progname l opt optarg t) as [[[l'|status]|e] t'];
    reflexivity.
Qed.

(** The whole loop: it ends with the locals the options dictate and no
    output, or the program is on its way out with status 1. *)
Lemma getopt_loop_cases progname opts : forall l t,
  (exists l',
      getopt_loop progname opts l t = (Done (inl l'), t) /\
      Locals.SPI_clock_mhz l' = fold_left clock_step opts (Locals.SPI_clock_mhz l) /\
      Locals.strip_creator l' = fold_left creator_step opts (Locals.strip_creator l) /\
      (forall arg, In ("a"%char, arg) opts -> LibC.parses_both arg = true))
  \/ refused (getopt_loop progname opts l t) (inr 1) t.
Proof.
  induction opts as [|[opt optarg] opts IH]; intros l t.
  - left. exists l. cbn. repeat split; try reflexivity. intros arg [].
  - rewrite getopt_loop_cons.
    destruct (switch_opt_cases progname l opt optarg t)
      as [(l1 & E & Hc & Hf & Ha) | (msgs & E & Hne & Hs)]; rewrite E.
    + destruct (IH l1 t) as [(l' & E' & Hc' & Hf' & Ha') | Hout].
      * left. exists l'. split; [assumption|].
        cbn [fold_left]. unfold clock_step at 2, creator_step at 2. cbn [fst snd].
        rewrite <- Hc, <- Hf. repeat split; try assumption.
        intros arg [Heq|Hin]; [|now apply Ha'].
        inversion Heq; subst. now apply Ha.
      * now right.
    + right. exists msgs. now repeat split.
Qed.

Lemma creator_of_type opts : forall ty f,
  (forall name, ty = Some name -> f = parseType name) ->
  forall name, fold_left type_step opts ty = Some name ->
  fold_left creator_step opts f = parseType name.
Proof.
  induction opts as [|[opt optarg] opts IH]; intros ty f Hty name H.
  - cbn in *. now apply Hty.
  - cbn [fold_left] in *. apply (IH (type_step ty (opt, optarg))); [|assumption].
    unfold type_step, creator_step. cbn [fst snd].
    destruct (Ascii.eqb opt "T"); intros n Hn.
    + now inversion Hn.
    + now apply Hty.
Qed.

(** [main] passes on a refusal of the option loop. *)
Lemma main_refused_by_loop progname opts uid t :
  refused (getopt_loop progname opts initial_locals t) (inr 1) t ->
  refused (main progname opts uid t) (Return 1) t.
Proof.
  intros (msgs & H & Hne & Hs). exists msgs.
  unfold main, bind at 1. rewrite H. now repeat split.
Qed.

(** After the loop, [main] with a NULL [strip_creator] or a clock
    outside 1..15 returns 1 after one line on stderr. *)
Lemma main_refuses_locals progname opts uid t l :
  getopt_loop progname opts initial_locals t = (Done (inl l), t) ->
  Locals.strip_creator l = None \/
  Locals.SPI_clock_mhz l < 1 \/ 15 < Locals.SPI_clock_mhz l ->
  refused (main progname opts uid t) (Return 1) t.
Proof.
  intros Hloop Hbad. unfold main, bind at 1. rewrite Hloop.
  destruct (Locals.strip_creator l) as [f|] eqn:Ef.
  - destruct Hbad as [Hbad|Hbad]; [discriminate Hbad|].
    exists [EvStderr msg_clock].
    assert (Hc : (Locals.SPI_clock_mhz l <? 1) || (Locals.SPI_clock_mhz l >? 15) = true).
    { apply orb_true_iff. destruct Hbad; [left; lia|right; lia]. }
    rewrite Hc. now repeat split.
  - exists [EvStderr msg_type]. now repeat split.
Qed.

(* ================================================================== *)
(** * Strip-type lookup: comparison without regard to case *)
(* ================================================================== *)

Lemma code_inj c1 c2 : LibC.code c1 = LibC.code c2 -> c1 = c2.
Proof.
  unfold LibC.code. intros H. apply N2Z.inj in H.
  rewrite <- (ascii_N_embedding c1), <- (ascii_N_embedding c2).
  now rewrite H.
Qed.

Lemma tolower_code_zero c : LibC.code (LibC.tolower c) = 0 <-> LibC.code c = 0.
Proof.
  destruct c as [[] [] [] [] [] [] [] []]; vm_compute; split; intros H;
    (reflexivity || discriminate H).
Qed.

(** [strcasecmp] returns 0 exactly when the two C strings are equal once
    lower-cased. *)
Lemma strcasecmp_zero a : forall b,
  LibC.strcasecmp a b = 0 <->
  LibC.lowercase (LibC.c_str a) = LibC.lowercase (LibC.c_str b).
Proof.
  induction a as [|c1 r1 IH]; intros [|c2 r2];
    cbn [LibC.strcasecmp LibC.c_str LibC.lowercase].
  - split; reflexivity.
  - destruct (Z.eqb_spec (LibC.code c2) 0) as [H2|H2]; cbn [LibC.lowercase].
    + split; intros _; [reflexivity|].
      apply tolower_code_zero in H2. lia.
    + split; intros H; [|discriminate H].
      exfalso. apply H2, tolower_code_zero. lia.
  - destruct (Z.eqb_spec (LibC.code c1) 0) as [H1|H1]; cbn [LibC.lowercase].
    + split; intros _; [reflexivity|].
      apply tolower_code_zero in H1. lia.
    + split; intros H; [|discriminate H].
      exfalso. apply H1, tolower_code_zero. lia.
  - destruct (Z.eqb_spec (LibC.code (LibC.tolower c1) - LibC.code (LibC.tolower c2)) 0)
      as [Hd|Hd].
    + assert (Heq : LibC.tolower c1 = LibC.tolower c2) by (apply code_inj; lia).
      destruct (Z.eqb_spec (LibC.code c1) 0) as [H1|H1].
      * assert (H2 : LibC.code c2 = 0).
        { apply tolower_code_zero. rewrite <- Heq. now apply tolower_code_zero. }
        destruct (Z.eqb_spec (LibC.code c2) 0) as [_|H2']; [|contradiction].
        split; reflexivity.
      * assert (H2 : LibC.code c2 <> 0).
        { intros H2. apply H1, tolower_code_zero. rewrite Heq.
          now apply tolower_code_zero. }
        destruct (Z.eqb_spec (LibC.code c2) 0) as [H2'|_]; [contradiction|].
        cbn [LibC.lowercase]. rewrite IH, Heq. split; intros H.
        -- now rewrite H.
        -- now inversion H.
    + split; intros H; [contradiction|]. exfalso. apply Hd.
      destruct (Z.eqb_spec (LibC.code c1) 0) as [H1|H1];
        destruct (Z.eqb_spec (LibC.code c2) 0) as [H2|H2];
        cbn [LibC.lowercase] in H; try discriminate H.
      * apply tolower_code_zero in H1, H2. lia.
      * inversion H as [[Hh Ht]]. rewrite Hh. lia.
Qed.

Lemma strcasecmp_eqb s k :
  (LibC.strcasecmp s k =? 0) =
  String.eqb (LibC.lowercase (LibC.c_str s)) (LibC.lowercase (LibC.c_str k)).
Proof.
  destruct (Z.eqb_spec (LibC.strcasecmp s k) 0) as [H|H];
    destruct (String.eqb_spec (LibC.lowercase (LibC.c_str s))
                              (LibC.lowercase (LibC.c_str k))) as [E|E];
    try reflexivity.
  - exfalso. now apply E, strcasecmp_zero.
  - exfalso. now apply H, strcasecmp_zero.
Qed.

Lemma getopt_loop_app progname pre : forall rest l t,
  getopt_loop progname (pre ++ rest) l t =
  match getopt_loop progname pre l t with
  | (Done (inl l'), t') => getopt_loop progname rest l' t'
  | other => other
  end.
Proof.
  induction pre as [|[opt optarg] pre IH]; intros rest l t.
  - reflexivity.
  - cbn [app]. rewrite !getopt_loop_cons.
    destruct (switch_opt progname l opt optarg t) as [[[l'|status]|e] t'];
      [apply IH|reflexivity|reflexivity].
Qed.

(** With every check passed, [main] builds the device and hands it to the
    server together with the options as the loop left them. *)
Lemma main_starts_server progname opts t l f :
  getopt_loop progname opts initial_locals t = (Done (inl l), t) ->
  Locals.strip_creator l = Some f ->
  1 <= Locals.SPI_clock_mhz l <= 15 ->
  0 <= Locals.num_strips l ->
  exists this t',
    SpixelsDevice_ctor (Locals.SPI_clock_mhz l) (Some f) (Locals.num_strips l)
      (Locals.strip_len l) t = (Done this, t') /\
    main progname opts 0 t =
    (Done (if server_starts (Locals.pp_options l) this
           then SleepForever else Return 1),
     t' ++ [EvStartPixelPusherServer (Locals.pp_options l) this]).
Proof.
  intros Hloop Hf Hc HN.
  rewrite ctor_run by assumption. eexists. eexists. split; [reflexivity|].
  unfold main, bind at 1. rewrite Hloop, Hf.
  destruct (Z.ltb_spec (Locals.SPI_clock_mhz l) 1) as [|_]; [lia|].
  destruct (Z.gtb_spec (Locals.SPI_clock_mhz l) 15) as [|_]; [lia|].
  cbn [orb Z.eqb negb]. unfold bind at 1. rewrite ctor_run by assumption.
  unfold bind, StartPixelPusherServer.
  destruct (server_starts _ _); reflexivity.
Qed.

(* ================================================================== *)
(** * The claims *)
(* ================================================================== *)

(** C1.  [SetPixel] always returns.  With a strip index outside
    [0, num_strips_) it makes no call at all, so the trace and with it
    what every strip driver has staged are as before.  With a strip index
    inside the range it makes exactly one call: [SetPixel] on the strip
    stored at that index, with the pixel index and the colour's red,
    green and blue; that strip has staged one more write and every other
    strip what it had. *)
Theorem SetPixel_strip_index this strip pixel col t :
  array_sized this ->
  exists t',
    SetPixel this strip pixel col t = (Done tt, t') /\
    (strip < 0 \/ num_strips_ this <= strip ->
       t' = t /\ forall s, staged s t' = staged s t) /\
    (0 <= strip < num_strips_ this ->
       exists s,
         nth_error (strips_ this) (Z.to_nat strip) = Some s /\
         t' = t ++ [EvLEDStripSetPixel s pixel (red col) (green col) (blue col)] /\
         staged s t' =
           staged s t ++ [ {| to_strip := s; at_pixel := pixel;
                              r_value := red col; g_value := green col;
                              b_value := blue col |} ] /\
         forall s', s' <> s -> staged s' t' = staged s' t).
Proof.
  intros Hsz.
  destruct (Z.ltb_spec strip 0) as [Hlo|Hlo];
    [|destruct (Z.ltb_spec strip (num_strips_ this)) as [Hhi|Hhi]].
  - exists t. split; [apply SetPixel_outside; lia|]. split; [now split|lia].
  - destruct (array_lookup this strip Hsz (conj Hlo Hhi)) as [s Hs].
    eexists. split; [now apply SetPixel_inside with (s := s)|].
    split; [lia|]. intros _. exists s. split; [assumption|].
    split; [reflexivity|]. split.
    + rewrite staged_app. f_equal. unfold staged. cbn.
      now rewrite Nat.eqb_refl.
    + intros s' Hne. rewrite staged_app. unfold staged at 2. cbn.
      destruct (Nat.eqb_spec s s') as [E|_]; [now subst|].
      now rewrite app_nil_r.
  - exists t. split; [apply SetPixel_outside; lia|]. split; [now split|lia].
Qed.

(** C2.  A sequence of [SetPixel] calls runs to the end without the bus
    seeing a commit; with one [FlushFrame] after it the bus has seen
    exactly one more commit, and that commit carries what was pending
    before together with every write the sequence staged, in order;
    nothing is pending afterwards. *)
Theorem FlushFrame_commits_staged_writes this calls t :
  array_sized this ->
  forallb is_set_pixel calls = true ->
  exists r1 t1 r2 t2,
    serve this calls t = (Done r1, t1) /\
    committed (bus_view (spi_ this) t1) = committed (bus_view (spi_ this) t) /\
    serve this (calls ++ [CallFlushFrame]) t = (Done r2, t2) /\
    t2 = t1 ++ [EvSendBuffers (spi_ this)] /\
    committed (bus_view (spi_ this) t2) =
      committed (bus_view (spi_ this) t)
      ++ [pending (bus_view (spi_ this) t) ++ flat_map (staged_by this) calls] /\
    pending (bus_view (spi_ this) t2) = [].
Proof.
  intros Hsz Hset.
  do 4 eexists.
  split; [now apply serve_run|].
  rewrite emitted_set_pixels by assumption.
  split; [now rewrite bus_view_app, bus_view_writes|].
  split; [now apply serve_run|].
  rewrite flat_map_snoc, emitted_set_pixels by assumption.
  cbn [emitted]. rewrite app_assoc. split; [reflexivity|].
  rewrite !bus_view_app, bus_view_writes. cbn.
  rewrite Nat.eqb_refl. cbn. now split.
Qed.

(** C3.  A device the constructor returned for strip count N and length
    L answers the topology queries with N and L; any sequence of calls on
    it ([SetPixel], [FlushFrame], topology queries) runs to the end,
    leaves the object as it was and answers every topology query in it
    with N, respectively L. *)
Theorem topology_constant c f N L t this t' :
  SpixelsDevice_ctor c f N L t = (Done this, t') ->
  num_strips this = N /\ num_pixel_per_strip this = L /\
  forall calls t1, exists t2,
    serve this calls t1 =
    (Done (this,
           map (fun call => match call with
                            | CallNumStrips => Some N
                            | CallNumPixelPerStrip => Some L
                            | _ => None
                            end) calls),
     t2).
Proof.
  intros H. apply ctor_returns in H as (_ & HN & HL & Hsz).
  unfold num_strips, num_pixel_per_strip.
  split; [assumption|]. split; [assumption|].
  intros calls t1. eexists. rewrite serve_run by assumption.
  f_equal. f_equal. f_equal. apply map_ext. intros call.
  destruct call; cbn; congruence.
Qed.

(** C4.  For a strip count N >= 0 the constructor returns after exactly
    these calls, in this order: one [CreateDirectMultiSPI] with the clock
    rate, then one call of the factory for each connector 1, 2, .., N,
    each with the bus just created, [SPIPinForConnector] of the connector
    and the strip length.  One bus and N strips have been created, and
    the device holds the N strips in that order. *)
Theorem ctor_creates_bus_then_strips c (f : StripFactoryFn) N L t :
  0 <= N ->
  exists this t',
    SpixelsDevice_ctor c (Some f) N L t = (Done this, t') /\
    t' = t ++ EvCreateDirectMultiSPI c
           :: map (fun k => EvStripFactory f (buses_created t)
                              (SPIPinForConnector (Z.of_nat k)) L)
                  (seq 1 (Z.to_nat N)) /\
    buses_created t' = S (buses_created t) /\
    strips_created t' = (strips_created t + Z.to_nat N)%nat /\
    spi_ this = buses_created t /\
    strips_ this = seq (strips_created t) (Z.to_nat N).
Proof.
  intros HN. rewrite ctor_run by assumption.
  eexists. eexists. split; [reflexivity|]. split; [reflexivity|].
  cbn [spi_ strips_].
  unfold buses_created, strips_created.
  rewrite !filter_app, !length_app. cbn [filter is_bus is_strip].
  set (evs := map _ (seq 1 (Z.to_nat N))).
  assert (Hb : filter is_bus evs = []).
  { subst evs. induction (seq 1 (Z.to_nat N)); [reflexivity|assumption]. }
  assert (Hs : filter is_strip evs = evs).
  { subst evs. induction (seq 1 (Z.to_nat N)) as [|k ks IH]; [reflexivity|].
    cbn. now rewrite IH. }
  rewrite Hb, Hs. subst evs. rewrite length_map, length_seq. cbn.
  repeat split; lia.
Qed.

(** C5.  When the clock rate left by the options (the argument of the
    last [-c], or 4) is below 1 or above 15, [main] returns 1 and all it
    has done is write to stderr: no bus and no strip was created. *)
Theorem clock_out_of_range_refused progname opts uid t :
  configured_clock opts < 1 \/ 15 < configured_clock opts ->
  exists msgs,
    main progname opts uid t = (Done (Return 1), t ++ msgs) /\
    msgs <> [] /\
    forallb is_stderr msgs = true /\
    constructs_nothing msgs = true /\
    buses_created (t ++ msgs) = buses_created t /\
    strips_created (t ++ msgs) = strips_created t.
Proof.
  intros Hclock.
  assert (R : refused (main progname opts uid t) (Return 1) t).
  { destruct (getopt_loop_cases progname opts initial_locals t)
      as [(l & Hloop & Hc & _) | Hout].
    - apply main_refuses_locals with (l := l); [assumption|].
      right. rewrite Hc. exact Hclock.
    - now apply main_refused_by_loop. }
  destruct R as (msgs & E & Hne & Hs). exists msgs.
  repeat split; try assumption.
  - now apply stderr_constructs_nothing.
  - now apply created_app_stderr.
  - now apply created_app_stderr.
Qed.

(** C6.  When the name given with the last [-T] is one [parseType] does
    not know, [main] returns 1 and all it has done is write to stderr: no
    bus and no strip was created. *)
Theorem unknown_type_refused progname opts uid t name :
  configured_type opts = Some name ->
  parseType name = None ->
  exists msgs,
    main progname opts uid t = (Done (Return 1), t ++ msgs) /\
    msgs <> [] /\
    forallb is_stderr msgs = true /\
    constructs_nothing msgs = true /\
    buses_created (t ++ msgs) = buses_created t /\
    strips_created (t ++ msgs) = strips_created t.
Proof.
  intros Hty Hnone.
  assert (R : refused (main progname opts uid t) (Return 1) t).
  { destruct (getopt_loop_cases progname opts initial_locals t)
      as [(l & Hloop & _ & Hf & _) | Hout].
    - apply main_refuses_locals with (l := l); [assumption|].
      left. rewrite Hf, <- Hnone.
      apply creator_of_type with (ty := None); [discriminate|exact Hty].
    - now apply main_refused_by_loop. }
  destruct R as (msgs & E & Hne & Hs). exists msgs.
  repeat split; try assumption.
  - now apply stderr_constructs_nothing.
  - now apply created_app_stderr.
  - now apply created_app_stderr.
Qed.

(** C8.  When some [-a] argument is one from which [sscanf] does not
    obtain two integers, [main] returns 1 and all it has done is write to
    stderr: no bus, no strip and no device was created.  When the options
    before that [-a] were accepted, what it wrote is the line about the
    Artnet parameters. *)
Theorem malformed_artnet_refused progname opts uid t arg :
  In ("a"%char, arg) opts ->
  LibC.parses_both arg = false ->
  (exists msgs,
      main progname opts uid t = (Done (Return 1), t ++ msgs) /\
      msgs <> [] /\
      forallb is_stderr msgs = true /\
      constructs_nothing msgs = true /\
      buses_created (t ++ msgs) = buses_created t /\
      strips_created (t ++ msgs) = strips_created t) /\
  (forall pre post l,
      opts = pre ++ ("a"%char, arg) :: post ->
      getopt_loop progname pre initial_locals t = (Done (inl l), t) ->
      main progname opts uid t = (Done (Return 1), t ++ [EvStderr msg_artnet])).
Proof.
  intros Hin Hbad. split.
  - assert (R : refused (main progname opts uid t) (Return 1) t).
    { destruct (getopt_loop_cases progname opts initial_locals t)
        as [(l & _ & _ & _ & Ha) | Hout].
      - specialize (Ha arg Hin). congruence.
      - now apply main_refused_by_loop. }
    destruct R as (msgs & E & Hne & Hs). exists msgs.
    repeat split; try assumption.
    + now apply stderr_constructs_nothing.
    + now apply created_app_stderr.
    + now apply created_app_stderr.
  - intros pre post l -> Hpre.
    unfold main, bind at 1. rewrite getopt_loop_app, Hpre, getopt_loop_cons.
    destruct (switch_opt_cases progname l "a" arg t)
      as [(l1 & _ & _ & _ & Ha) | _].
    { specialize (Ha eq_refl). congruence. }
    cbv beta iota delta [switch_opt].
    destruct (LibC.sscanf_d_comma_d arg
                (artnet_universe (Locals.pp_options l))
                (artnet_channel (Locals.pp_options l)))
      as [[n universe] channel] eqn:E.
    assert (Hn : (2 =? n) = false).
    { unfold LibC.parses_both in Hbad.
      rewrite (sscanf_return_value arg 0 0
                 (artnet_universe (Locals.pp_options l))
                 (artnet_channel (Locals.pp_options l))), E in Hbad.
      cbn in Hbad. now rewrite Z.eqb_sym. }
    rewrite Hn. reflexivity.
Qed.

(** C9.  [parseType] is the lookup by family name: for every string it
    returns what [family_of_name] says, the constructor of the family the
    lower-cased name spells and NULL for every other name.  It is a
    function of the name alone, and the [-T] case of the option loop,
    which calls it, makes no call to a library and writes nothing. *)
Theorem parseType_by_family_name :
  (forall type, parseType type = family_of_name type) /\
  (forall progname l type t,
      switch_opt progname l "T" type t =
      (Done (inl (with_strip_creator l (parseType type))), t)).
Proof.
  split; [|reflexivity].
  intros type. unfold parseType, family_of_name.
  rewrite !strcasecmp_eqb. reflexivity.
Qed.

(** C10 (amended).  The constructor checks neither count nor length: for
    every strip count N >= 0, zero included, and every length L it
    returns a device, having created a strip for each i with 0 <= i < N,
    and the topology queries report N and L as given; with N = 0
    [SetPixel] does nothing for every strip index. *)
Theorem ctor_accepts_any_count_from_zero c (f : StripFactoryFn) N L t :
  0 <= N ->
  exists this t',
    SpixelsDevice_ctor c (Some f) N L t = (Done this, t') /\
    num_strips this = N /\
    num_pixel_per_strip this = L /\
    strips_created t' = (strips_created t + Z.to_nat N)%nat /\
    List.length (strips_ this) = Z.to_nat N /\
    (N = 0 -> forall strip pixel col t2,
               SetPixel this strip pixel col t2 = (Done tt, t2)).
Proof.
  intros HN. rewrite ctor_run by assumption.
  eexists. eexists. split; [reflexivity|].
  unfold num_strips, num_pixel_per_strip. cbn [num_strips_ strip_len_ strips_].
  split; [reflexivity|]. split; [reflexivity|]. split; [|split].
  - unfold strips_created. rewrite filter_app, length_app.
    cbn [filter is_strip]. f_equal.
    set (evs := map _ (seq 1 (Z.to_nat N))).
    assert (Hs : filter is_strip evs = evs).
    { subst evs. induction (seq 1 (Z.to_nat N)) as [|k ks IH]; [reflexivity|].
      cbn. now rewrite IH. }
    rewrite Hs. subst evs. now rewrite length_map, length_seq.
  - apply length_seq.
  - intros -> strip pixel col t2. apply SetPixel_outside.
    cbn [num_strips_]. lia.
Qed.

(* ================================================================== *)
(** * Further properties of the adapter *)
(* ================================================================== *)

Lemma skipn_nth_error {A} (l : list A) : forall i x,
  nth_error l i = Some x -> skipn i l = x :: skipn (S i) l.
Proof.
  induction l as [|a l IH]; intros [|i] x H; try discriminate H.
  - now inversion H.
  - cbn in H. cbn [skipn]. now apply IH.
Qed.

(** The destructor's loop from index [i] on releases the strips stored
    from [i] on, in index order. *)
Lemma delete_strips_run this k : forall i,
  (i + k = List.length (strips_ this))%nat ->
  delete_strips k (Z.of_nat i) this =
  Done (map DeleteStrip (skipn i (strips_ this))).
Proof.
  induction k as [|k IH]; intros i H.
  - cbn. rewrite skipn_all2 by lia. reflexivity.
  - cbn [delete_strips]. rewrite Nat2Z.id.
    destruct (nth_error (strips_ this) i) as [s|] eqn:E.
    + replace (Z.of_nat i + 1) with (Z.of_nat (S i)) by lia.
      rewrite IH by lia. now rewrite (skipn_nth_error _ _ _ E).
    + apply nth_error_None in E. lia.
Qed.

Lemma dtor_run this :
  array_sized this ->
  SpixelsDevice_dtor this =
  Done (map DeleteStrip (strips_ this) ++ [DeleteArray; DeleteSPI (spi_ this)]).
Proof.
  unfold array_sized, SpixelsDevice_dtor. intros Hsz.
  rewrite <- Hsz, Nat2Z.id.
  pose proof (delete_strips_run this (List.length (strips_ this)) 0 eq_refl) as E.
  cbn [Z.of_nat skipn] in E. now rewrite E.
Qed.

Lemma filter_strip_factory_events (f : StripFactoryFn) (spi : MultiSPI_ptr)
    (pin : nat -> Z) (L : Z) (ks : list nat) :
  filter is_strip (map (fun k => EvStripFactory f spi (pin k) L) ks) =
  map (fun k => EvStripFactory f spi (pin k) L) ks /\
  filter is_bus (map (fun k => EvStripFactory f spi (pin k) L) ks) = [].
Proof.
  induction ks as [|k ks [IH1 IH2]]; [now split|].
  cbn. now rewrite IH1, IH2.
Qed.

Lemma nth_error_seq_in start len i :
  (i < len)%nat -> nth_error (seq start len) i = Some (start + i)%nat.
Proof.
  revert start i. induction len as [|len IH]; intros start [|i] H; try lia.
  - cbn. now rewrite Nat.add_0_r.
  - cbn. rewrite IH by lia. f_equal. lia.
Qed.

Lemma NoDup_DeleteStrip (l : list LEDStrip_ptr) :
  NoDup l -> NoDup (map DeleteStrip l).
Proof.
  induction 1 as [|s l Hnin Hnd IH]; cbn; constructor; [|assumption].
  intros Hin. apply in_map_iff in Hin as (s' & E & Hin).
  inversion E; subst. contradiction.
Qed.

(** The writes among the calls a method makes are the ones it stages. *)
Lemma writes_of_emitted this calls :
  flat_map write_of (flat_map (emitted this) calls) =
  flat_map (staged_by this) calls.
Proof.
  induction calls as [|c calls IH]; [reflexivity|].
  cbn [flat_map]. rewrite flat_map_app, IH. f_equal.
  destruct c; try reflexivity.
  cbn [emitted]. induction (staged_by this (CallSetPixel strip pixel col)) as [|w ws IHw];
    [reflexivity|].
  cbn. rewrite IHw. now destruct w.
Qed.

(** What a run of calls does to the commits a bus has seen. *)
Lemma commits_of_emitted this spi calls : forall v,
  List.length (committed (fold_left (bus_step spi) (flat_map (emitted this) calls) v)) =
  (List.length (committed v) +
   (if Nat.eqb (spi_ this) spi then List.length (filter is_flush calls) else 0))%nat.
Proof.
  induction calls as [|c calls IH]; intros v.
  - cbn. destruct (Nat.eqb (spi_ this) spi); lia.
  - cbn [flat_map]. rewrite fold_left_app, IH.
    destruct c; cbn [emitted filter is_flush fold_left]; try lia.
    + rewrite bus_view_writes. cbn. lia.
    + cbn [bus_step]. destruct (Nat.eqb (spi_ this) spi); cbn.
      * rewrite length_app. cbn. lia.
      * lia.
Qed.

(** X1.  The destructor of a device whose array has [num_strips_]
    entries returns after releasing the strips in index order, then the
    array, then the bus: every strip is released before the bus it was
    created on. *)
Theorem dtor_releases_strips_then_bus this :
  array_sized this ->
  exists released,
    SpixelsDevice_dtor this =
      Done (released ++ [DeleteArray; DeleteSPI (spi_ this)]) /\
    released = map DeleteStrip (strips_ this) /\
    Z.of_nat (List.length released) = num_strips_ this.
Proof.
  intros Hsz. exists (map DeleteStrip (strips_ this)).
  split; [now apply dtor_run|]. split; [reflexivity|].
  rewrite length_map. exact Hsz.
Qed.

(** X2.  Construction followed by destruction: the destructor releases
    exactly the strips this constructor created, each of them once, and
    then the bus this constructor created. *)
Theorem ctor_then_dtor_releases_what_was_created c (f : StripFactoryFn) N L t :
  0 <= N ->
  exists this t' released,
    SpixelsDevice_ctor c (Some f) N L t = (Done this, t') /\
    SpixelsDevice_dtor this =
      Done (released ++ [DeleteArray; DeleteSPI (buses_created t)]) /\
    forallb is_strip_release released = true /\
    NoDup released /\
    (forall s, In (DeleteStrip s) released <->
               (strips_created t <= s < strips_created t')%nat) /\
    buses_created t' = S (buses_created t).
Proof.
  intros HN. rewrite ctor_run by assumption.
  eexists. eexists. exists (map DeleteStrip (seq (strips_created t) (Z.to_nat N))).
  split; [reflexivity|]. split.
  { rewrite dtor_run; [reflexivity|].
    unfold array_sized. cbn. rewrite length_seq. lia. }
  unfold buses_created, strips_created.
  rewrite !filter_app, !length_app. cbn [filter is_bus is_strip].
  destruct (filter_strip_factory_events f (buses_created t)
              (fun k => SPIPinForConnector (Z.of_nat k)) L
              (seq 1 (Z.to_nat N))) as [Hs Hb].
  unfold buses_created in Hs, Hb. rewrite Hs, Hb, length_map, length_seq.
  split; [|split; [|split]].
  - apply forallb_forall. intros r Hr. apply in_map_iff in Hr as (s & <- & _).
    reflexivity.
  - apply NoDup_DeleteStrip, seq_NoDup.
  - intros s. rewrite in_map_iff. split.
    + intros (s' & E & Hin). inversion E; subst. apply in_seq in Hin. lia.
    + intros H. exists s. split; [reflexivity|]. apply in_seq. lia.
  - cbn. lia.
Qed.

(** X3.  In a device the constructor returned, the strip stored at index
    i is the one the factory created for connector i+1: on the device's
    bus, at the pin of that connector, with the strip length given; and
    the device's bus is the one created at the clock rate given. *)
Theorem strip_index_is_connector c (f : StripFactoryFn) N L t this t' :
  SpixelsDevice_ctor c (Some f) N L t = (Done this, t') ->
  created_bus t' (spi_ this) = Some (EvCreateDirectMultiSPI c) /\
  forall i, 0 <= i < N ->
    exists s,
      nth_error (strips_ this) (Z.to_nat i) = Some s /\
      created_strip t' s =
        Some (EvStripFactory f (spi_ this) (SPIPinForConnector (i + 1)) L).
Proof.
  intros H. destruct (ctor_returns _ _ _ _ _ _ _ H) as (HN & _).
  rewrite ctor_run in H by assumption. inversion H; subst; clear H.
  cbn [spi_ strips_]. unfold created_bus, created_strip.
  rewrite !filter_app. cbn [filter is_bus is_strip].
  destruct (filter_strip_factory_events f (buses_created t)
              (fun k => SPIPinForConnector (Z.of_nat k)) L
              (seq 1 (Z.to_nat N))) as [Hs Hb].
  rewrite Hs, Hb. split.
  - unfold buses_created. rewrite nth_error_app2 by lia.
    now rewrite Nat.sub_diag.
  - intros i Hi. exists (strips_created t + Z.to_nat i)%nat. split.
    + apply nth_error_seq_in. lia.
    + unfold strips_created. rewrite nth_error_app2 by lia.
      replace (List.length (filter is_strip t) + Z.to_nat i
               - List.length (filter is_strip t))%nat with (Z.to_nat i) by lia.
      rewrite nth_error_map, nth_error_seq_in by lia. cbn.
      do 3 f_equal. lia.
Qed.

(** X4.  In a device the constructor returned, different indices hold
    different strips: [SetPixel] on one index leaves what the strip at any
    other index has staged as it was. *)
Theorem SetPixel_leaves_other_indices c (f : StripFactoryFn) N L t this t'
    i j pixel col t2 :
  SpixelsDevice_ctor c (Some f) N L t = (Done this, t') ->
  0 <= j < N -> i <> j ->
  exists sj,
    nth_error (strips_ this) (Z.to_nat j) = Some sj /\
    staged sj (snd (SetPixel this i pixel col t2)) = staged sj t2.
Proof.
  intros H Hj Hij. destruct (ctor_returns _ _ _ _ _ _ _ H) as (HN & _ & _ & Hsz).
  rewrite ctor_run in H by assumption. inversion H; subst; clear H.
  exists (strips_created t + Z.to_nat j)%nat.
  split; [cbn [strips_]; apply nth_error_seq_in; lia|].
  rewrite SetPixel_run by assumption. cbn [snd].
  rewrite staged_app. cbn [emitted staged_by num_strips_ strips_].
  destruct ((0 <=? i) && (i <? N)) eqn:Ei; [|now rewrite app_nil_r].
  apply andb_true_iff in Ei as [Hi0 Hi1].
  apply Z.leb_le in Hi0. apply Z.ltb_lt in Hi1.
  rewrite nth_error_seq_in by lia. unfold staged. cbn.
  destruct (Nat.eqb_spec (strips_created t + Z.to_nat i)
                         (strips_created t + Z.to_nat j)) as [E|_]; [lia|].
  now rewrite app_nil_r.
Qed.

(** X5.  After any sequence of calls on a device whose array has
    [num_strips_] entries, what a strip has staged is what it had, followed
    by the writes the sequence addressed to it, in the order of the calls:
    writes are neither lost, reordered nor delivered to another strip, and
    writes to indices outside the range reach no strip. *)
Theorem serve_stages_in_call_order this calls t s :
  array_sized this ->
  staged s (snd (serve this calls t)) =
  staged s t ++
  filter (fun w => Nat.eqb (to_strip w) s) (flat_map (staged_by this) calls).
Proof.
  intros Hsz. rewrite serve_run by assumption. cbn [snd].
  rewrite staged_app. f_equal. unfold staged. now rewrite writes_of_emitted.
Qed.

(** X6.  Every [FlushFrame] reaches the bus, staged writes or not: after
    any sequence of calls the device's bus has seen as many more commits
    as the sequence has [FlushFrame] calls, and any other bus has seen no
    more than before. *)
Theorem every_FlushFrame_commits this calls t :
  array_sized this ->
  List.length (committed (bus_view (spi_ this) (snd (serve this calls t)))) =
    (List.length (committed (bus_view (spi_ this) t))
     + List.length (filter is_flush calls))%nat /\
  (forall spi, spi <> spi_ this ->
     List.length (committed (bus_view spi (snd (serve this calls t)))) =
     List.length (committed (bus_view spi t))).
Proof.
  intros Hsz. rewrite serve_run by assumption. cbn [snd]. split.
  - rewrite bus_view_app, commits_of_emitted. now rewrite Nat.eqb_refl.
  - intros spi Hne. rewrite bus_view_app, commits_of_emitted.
    destruct (Nat.eqb_spec (spi_ this) spi) as [E|_]; [congruence|lia].
Qed.

(** X7.  Two frames in a row: the calls the adapter makes are, in this
    order, the writes the first frame stages, one [SendBuffers] on the
    device's bus, the writes the second frame stages, one [SendBuffers]
    on the device's bus.  Every staged write is passed on once, and on
    its own side of the first [SendBuffers]. *)
Theorem frames_reach_the_bus_in_order this frame1 frame2 t :
  array_sized this ->
  forallb is_set_pixel frame1 = true ->
  forallb is_set_pixel frame2 = true ->
  snd (serve this (frame1 ++ [CallFlushFrame] ++ frame2 ++ [CallFlushFrame]) t) =
  t ++ map event_of_write (flat_map (staged_by this) frame1)
    ++ [EvSendBuffers (spi_ this)]
    ++ map event_of_write (flat_map (staged_by this) frame2)
    ++ [EvSendBuffers (spi_ this)].
Proof.
  intros Hsz H1 H2. rewrite serve_run by assumption. cbn [snd].
  rewrite !flat_map_app.
  rewrite (emitted_set_pixels this frame1 H1), (emitted_set_pixels this frame2 H2).
  reflexivity.
Qed.

(* ================================================================== *)
(** * Further properties of main *)
(* ================================================================== *)

Lemma sscanf_parses s a0 b0 :
  LibC.parses_both s = true ->
  LibC.sscanf_d_comma_d s a0 b0 =
  (2, fst (LibC.parsed_pair s), snd (LibC.parsed_pair s)).
Proof.
  unfold LibC.parses_both, LibC.parsed_pair, LibC.sscanf_d_comma_d.
  destruct (LibC.scan_d s) as [a rest| |]; cbn; try discriminate.
  destruct rest as [|ch rest']; cbn; try discriminate.
  destruct ch as [[] [] [] [] [] [] [] []]; cbn; try discriminate.
  destruct (LibC.scan_d rest'); cbn; try discriminate. reflexivity.
Qed.

(** An accepted option changes the locals as [apply_opt] says and does
    nothing else. *)
Lemma switch_opt_accepted progname l opt optarg t :
  accepts (opt, optarg) = true ->
  switch_opt progname l opt optarg t = (Done (inl (apply_opt l (opt, optarg))), t).
Proof.
  intros H. destruct l as [[ni ups gr co au ac] ns sl ck sc].
  destruct opt as [[] [] [] [] [] [] [] []];
    cbn -[LibC.parses_both] in H; try discriminate H; try reflexivity.
  cbv beta iota delta [switch_opt]. cbn [Locals.pp_options artnet_universe artnet_channel].
  rewrite (sscanf_parses optarg au ac H). reflexivity.
Qed.

(** A letter the [switch] does not know sends [main] to [usage]. *)
Lemma switch_opt_unknown progname l opt optarg t :
  known_flag opt = false ->
  switch_opt progname l opt optarg t =
  (Done (inr 1), t ++ [EvStderr (usage_line progname); EvStderr usage_options]).
Proof.
  intros H.
  destruct opt as [[] [] [] [] [] [] [] []]; try discriminate H;
    cbv beta iota delta [switch_opt]; unfold bind; now rewrite usage_run.
Qed.

Lemma getopt_loop_accepts progname opts : forall l t,
  forallb accepts opts = true ->
  getopt_loop progname opts l t = (Done (inl (fold_left apply_opt opts l)), t).
Proof.
  induction opts as [|[opt optarg] opts IH]; intros l t H; [reflexivity|].
  cbn [forallb] in H. apply andb_true_iff in H as [Ho Hrest].
  rewrite getopt_loop_cons, switch_opt_accepted by assumption.
  cbn [fold_left]. now apply IH.
Qed.

Lemma setting_of_fold {A} flag (parse : string -> A) v opts : forall r,
  fold_left (setting_step flag parse) opts
    (match r with Some a => parse a | None => v end) =
  match fold_left (last_step flag) opts r with
  | Some a => parse a
  | None => v
  end.
Proof.
  induction opts as [|o opts IH]; intros r; [reflexivity|].
  cbn [fold_left]. rewrite <- IH. f_equal.
  unfold setting_step, last_step. now destruct (Ascii.eqb (fst o) flag).
Qed.

(** A component of the locals that each option treats as a setting of
    one letter ends up as that setting of the whole command line. *)
Lemma setting_of_locals {A} (proj : Locals.t -> A) flag parse opts :
  (forall l o, proj (apply_opt l o) = setting_step flag parse (proj l) o) ->
  forall l, proj (fold_left apply_opt opts l) = setting flag parse (proj l) opts.
Proof.
  intros Hstep. unfold setting, last_arg.
  induction opts as [|o opts IH] using rev_ind; intros l; [reflexivity|].
  rewrite !fold_left_app. cbn [fold_left]. rewrite Hstep, IH.
  unfold setting_step, last_step. now destruct (Ascii.eqb (fst o) flag).
Qed.

(** The locals after a command line made of accepted options. *)
Lemma locals_of_command_line opts :
  let l := fold_left apply_opt opts initial_locals in
  Locals.num_strips l = setting "S" LibC.atoi 16 opts /\
  Locals.strip_len l = setting "L" LibC.atoi 144 opts /\
  Locals.SPI_clock_mhz l = setting "c" LibC.atoi 4 opts /\
  Locals.strip_creator l = setting "T" parseType (Some CreateAPA102Strip) opts /\
  Locals.pp_options l = configured_options PPOptions_default opts.
Proof.
  cbv zeta.
  split; [now apply (setting_of_locals Locals.num_strips)|].
  split; [now apply (setting_of_locals Locals.strip_len)|].
  split; [now apply (setting_of_locals Locals.SPI_clock_mhz)|].
  split; [now apply (setting_of_locals Locals.strip_creator)|].
  pose proof (setting_of_locals (fun l => network_interface (Locals.pp_options l))
                "i" (fun s => s) opts (fun _ _ => eq_refl) initial_locals) as Hi.
  pose proof (setting_of_locals (fun l => udp_packet_size (Locals.pp_options l))
                "u" LibC.atoi opts (fun _ _ => eq_refl) initial_locals) as Hu.
  pose proof (setting_of_locals (fun l => group (Locals.pp_options l))
                "G" LibC.atoi opts (fun _ _ => eq_refl) initial_locals) as HG.
  pose proof (setting_of_locals (fun l => controller (Locals.pp_options l))
                "C" LibC.atoi opts (fun _ _ => eq_refl) initial_locals) as HC.
  pose proof (setting_of_locals (fun l => artnet_universe (Locals.pp_options l))
                "a" (fun s => fst (LibC.parsed_pair s)) opts (fun _ _ => eq_refl)
                initial_locals) as Hau.
  pose proof (setting_of_locals (fun l => artnet_channel (Locals.pp_options l))
                "a" (fun s => snd (LibC.parsed_pair s)) opts (fun _ _ => eq_refl)
                initial_locals) as Hac.
  cbv beta in Hi, Hu, HG, HC, Hau, Hac.
  destruct (Locals.pp_options (fold_left apply_opt opts initial_locals))
    as [ni ups gr co au ac].
  cbn [network_interface udp_packet_size group controller
       artnet_universe artnet_channel] in Hi, Hu, HG, HC, Hau, Hac.
  subst. reflexivity.
Qed.

(** [main] once the loop has left the locals [l]. *)
Lemma main_after_loop progname opts uid t l :
  getopt_loop progname opts initial_locals t = (Done (inl l), t) ->
  main progname opts uid t =
  match Locals.strip_creator l with
  | None => (Done (Return 1), t ++ [EvStderr msg_type])
  | Some _ =>
      if (Locals.SPI_clock_mhz l <? 1) || (Locals.SPI_clock_mhz l >? 15)
      then (Done (Return 1), t ++ [EvStderr msg_clock])
      else if negb (uid =? 0)
      then (Done (Return 1), t ++ [EvStderr (msg_root progname)])
      else (pixel_strips <- SpixelsDevice_ctor (Locals.SPI_clock_mhz l)
                              (Locals.strip_creator l) (Locals.num_strips l)
                              (Locals.strip_len l) ;;
            started <- StartPixelPusherServer (Locals.pp_options l) pixel_strips ;;
            if negb started then ret (Return 1) else ret SleepForever) t
  end.
Proof.
  intros Hloop. unfold main, bind at 1. rewrite Hloop.
  destruct (Locals.strip_creator l); [|reflexivity].
  destruct ((Locals.SPI_clock_mhz l <? 1) || (Locals.SPI_clock_mhz l >? 15));
    [reflexivity|].
  destruct (negb (uid =? 0)); reflexivity.
Qed.



(** X8.  A command line of accepted options with a known strip type, a
    clock rate within 1..15 and a strip count of at least 0, run as root:
    [main] creates the bus at the clock rate of the last [-c] (or 4), one
    strip per connector 1..N with N the count of the last [-S] (or 16)
    and the length of the last [-L] (or 144), through the factory of the
    last [-T] (or APA102), and then starts the server on that device with
    the options read from the command line.  It writes nothing to stderr
    and stays in its idle loop when the server started; it returns 1 when
    the server did not start. *)
Theorem main_builds_configured_device progname opts t f :
  forallb accepts opts = true ->
  setting "T" parseType (Some CreateAPA102Strip) opts = Some f ->
  1 <= setting "c" LibC.atoi 4 opts <= 15 ->
  0 <= setting "S" LibC.atoi 16 opts ->
  let N := setting "S" LibC.atoi 16 opts in
  let L := setting "L" LibC.atoi 144 opts in
  let this := {| num_strips_ := N; strip_len_ := L;
                 strips_ := seq (strips_created t) (Z.to_nat N);
                 spi_ := buses_created t |} in
  let o := configured_options PPOptions_default opts in
  main progname opts 0 t =
  (Done (if server_starts o this then SleepForever else Return 1),
   (t ++ EvCreateDirectMultiSPI (setting "c" LibC.atoi 4 opts)
      :: map (fun k => EvStripFactory f (buses_created t)
                         (SPIPinForConnector (Z.of_nat k)) L)
             (seq 1 (Z.to_nat N)))
   ++ [EvStartPixelPusherServer o this]).
Proof.
  intros Hacc Hf Hc HN. cbv zeta.
  destruct (locals_of_command_line opts) as (ES & EL & Ec & ET & Eo).
  destruct (main_starts_server progname opts t
              (fold_left apply_opt opts initial_locals) f)
    as (this & t' & Hctor & Hmain).
  - now apply getopt_loop_accepts.
  - now rewrite ET.
  - now rewrite Ec.
  - now rewrite ES.
  - rewrite ctor_run in Hctor by now rewrite ES.
    inversion Hctor; subst this t'; clear Hctor.
    rewrite Hmain, ES, EL, Ec, Eo. reflexivity.
Qed.

(** X9.  On a command line of accepted options the checks come in a
    fixed order and each failure writes its own single line: an unknown
    strip type is reported whatever the clock rate and the user; with a
    known type, a clock rate outside 1..15 is reported whoever the user
    is; with both in order, a user other than root is told to use sudo.
    Each time [main] returns 1. *)
Theorem main_checks_in_order progname opts uid t :
  forallb accepts opts = true ->
  (setting "T" parseType (Some CreateAPA102Strip) opts = None ->
   main progname opts uid t = (Done (Return 1), t ++ [EvStderr msg_type])) /\
  (setting "T" parseType (Some CreateAPA102Strip) opts <> None ->
   setting "c" LibC.atoi 4 opts < 1 \/ 15 < setting "c" LibC.atoi 4 opts ->
   main progname opts uid t = (Done (Return 1), t ++ [EvStderr msg_clock])) /\
  (setting "T" parseType (Some CreateAPA102Strip) opts <> None ->
   1 <= setting "c" LibC.atoi 4 opts <= 15 ->
   uid <> 0 ->
   main progname opts uid t =
   (Done (Return 1), t ++ [EvStderr (msg_root progname)])).
Proof.
  intros Hacc.
  destruct (locals_of_command_line opts) as (_ & _ & Ec & ET & _).
  rewrite (main_after_loop progname opts uid t _
             (getopt_loop_accepts progname opts initial_locals t Hacc)).
  rewrite ET, Ec.
  destruct (setting "T" parseType (Some CreateAPA102Strip) opts) as [f|].
  - split; [discriminate|]. split.
    + intros _ Hc.
      destruct (Z.ltb_spec (setting "c" LibC.atoi 4 opts) 1);
        [reflexivity|].
      destruct (Z.gtb_spec (setting "c" LibC.atoi 4 opts) 15);
        [reflexivity|lia].
    + intros _ Hc Huid.
      destruct (Z.ltb_spec (setting "c" LibC.atoi 4 opts) 1); [lia|].
      destruct (Z.gtb_spec (setting "c" LibC.atoi 4 opts) 15); [lia|].
      cbn [orb]. destruct (Z.eqb_spec uid 0); [contradiction|reflexivity].
  - split; [reflexivity|]. split; intros H; now contradiction H.
Qed.

(** X10.  The first option with a letter the [switch] does not know
    ends the run: when the options before it were accepted, [main] writes
    the two parts of the usage text, returns 1 and looks at no option
    after it. *)
Theorem unknown_option_prints_usage progname pre opt optarg post uid t :
  forallb accepts pre = true ->
  known_flag opt = false ->
  main progname (pre ++ (opt, optarg) :: post) uid t =
  (Done (Return 1),
   t ++ [EvStderr (usage_line progname); EvStderr usage_options]).
Proof.
  intros Hpre Hopt. unfold main, bind at 1.
  rewrite getopt_loop_app, getopt_loop_accepts by assumption.
  rewrite getopt_loop_cons, switch_opt_unknown by assumption.
  reflexivity.
Qed.

(** X11.  Whatever the command line, a user other than root gets status
    1 and text on stderr, and nothing else happens: no bus, no strip, no
    server. *)
Theorem not_root_builds_nothing progname opts uid t :
  uid <> 0 ->
  exists msgs,
    main progname opts uid t = (Done (Return 1), t ++ msgs) /\
    msgs <> [] /\
    forallb is_stderr msgs = true /\
    constructs_nothing msgs = true.
Proof.
  intros Huid.
  assert (R : refused (main progname opts uid t) (Return 1) t).
  { destruct (getopt_loop_cases progname opts initial_locals t)
      as [(l & Hloop & _) | Hout]; [|now apply main_refused_by_loop].
    rewrite (main_after_loop progname opts uid t l Hloop).
    destruct (Locals.strip_creator l).
    - destruct ((Locals.SPI_clock_mhz l <? 1) || (Locals.SPI_clock_mhz l >? 15)).
      + exists [EvStderr msg_clock]. now repeat split.
      + destruct (Z.eqb_spec uid 0); [contradiction|].
        exists [EvStderr (msg_root progname)]. now repeat split.
    - exists [EvStderr msg_type]. now repeat split. }
  destruct R as (msgs & E & Hne & Hs). exists msgs.
  repeat split; try assumption. now apply stderr_constructs_nothing.
Qed.

(** X12.  A negative strip count gets no diagnostic from [main]: with
    accepted options, a known strip type and a clock rate within 1..15,
    run as root, a last [-S] whose [int] is below 0 makes [main] leave
    through the exception of the array allocation; [main] has written no
    line of its own and no bus and no strip was created.  What the C++
    runtime prints when the exception goes uncaught is not recorded. *)
Theorem negative_strip_count_throws progname opts t :
  forallb accepts opts = true ->
  setting "T" parseType (Some CreateAPA102Strip) opts <> None ->
  1 <= setting "c" LibC.atoi 4 opts <= 15 ->
  setting "S" LibC.atoi 16 opts < 0 ->
  main progname opts 0 t = (Raised bad_array_new_length, t).
Proof.
  intros Hacc HT Hc HN.
  destruct (locals_of_command_line opts) as (ES & _ & Ec & ET & _).
  rewrite (main_after_loop progname opts 0 t _
             (getopt_loop_accepts progname opts initial_locals t Hacc)).
  rewrite ET, Ec, ES.
  destruct (setting "T" parseType (Some CreateAPA102Strip) opts) as [f|];
    [|contradiction].
  destruct (Z.ltb_spec (setting "c" LibC.atoi 4 opts) 1); [lia|].
  destruct (Z.gtb_spec (setting "c" LibC.atoi 4 opts) 15); [lia|].
  cbn [orb Z.eqb negb]. unfold bind at 1.
  now rewrite ctor_negative.
Qed.

(** X13.  Every run of [main] ends in one of three ways: it returns 1
    having only written to stderr; or it leaves through the exception of
    the array allocation having done nothing; or, run as root, it has
    built one device with a clock rate within 1..15 and has called the
    server, and then stays in its idle loop if the server started and
    returns 1 if not.  It never returns 0 and never calls a NULL
    factory. *)
Theorem main_outcomes progname opts uid t :
  (exists msgs,
      main progname opts uid t = (Done (Return 1), t ++ msgs) /\
      msgs <> [] /\ forallb is_stderr msgs = true)
  \/ main progname opts uid t = (Raised bad_array_new_length, t)
  \/ (uid = 0 /\
      exists c f N L o this t',
        1 <= c <= 15 /\ 0 <= N /\
        SpixelsDevice_ctor c (Some f) N L t = (Done this, t') /\
        main progname opts uid t =
          (Done (if server_starts o this then SleepForever else Return 1),
           t' ++ [EvStartPixelPusherServer o this])).
Proof.
  destruct (getopt_loop_cases progname opts initial_locals t)
    as [(l & Hloop & _) | Hout].
  2: { left. exact (main_refused_by_loop progname opts uid t Hout). }
  destruct (Locals.strip_creator l) as [f|] eqn:Ef.
  2: { left. apply main_refuses_locals with (l := l); [assumption|now left]. }
  destruct (Z.ltb_spec (Locals.SPI_clock_mhz l) 1) as [Hlo|Hlo].
  { left. apply main_refuses_locals with (l := l); [assumption|]. right. now left. }
  destruct (Z.ltb_spec 15 (Locals.SPI_clock_mhz l)) as [Hhi|Hhi].
  { left. apply main_refuses_locals with (l := l); [assumption|]. right. now right. }
  destruct (Z.eqb_spec uid 0) as [->|Huid].
  2: { left. rewrite (main_after_loop progname opts uid t l Hloop), Ef.
       destruct (Z.ltb_spec (Locals.SPI_clock_mhz l) 1); [lia|].
       destruct (Z.gtb_spec (Locals.SPI_clock_mhz l) 15); [lia|].
       cbn [orb]. destruct (Z.eqb_spec uid 0); [contradiction|].
       exists [EvStderr (msg_root progname)]. now repeat split. }
  destruct (Z.ltb_spec (Locals.num_strips l) 0) as [Hneg|Hpos].
  - right. left. rewrite (main_after_loop progname opts 0 t l Hloop), Ef.
    destruct (Z.ltb_spec (Locals.SPI_clock_mhz l) 1); [lia|].
    destruct (Z.gtb_spec (Locals.SPI_clock_mhz l) 15); [lia|].
    cbn [orb Z.eqb negb]. unfold bind at 1. now rewrite ctor_negative.
  - right. right. split; [reflexivity|].
    destruct (main_starts_server progname opts t l f Hloop Ef
                (conj Hlo Hhi) Hpos) as (this & t' & Hctor & Hmain).
    exists (Locals.SPI_clock_mhz l), f, (Locals.num_strips l),
      (Locals.strip_len l), (Locals.pp_options l), this, t'.
    repeat split; assumption.
Qed.

End Program.

(* ================================================================== *)
(** * The program with the server library of the specification *)
(* ================================================================== *)


(* ================================================================== *)
(** * Sample evaluations *)
(* ================================================================== *)

Example parseType_samples :
  parseType "apa102" = Some CreateAPA102Strip /\
  parseType "Ws2801" = Some CreateWS2801Strip /\
  parseType "LPD6803" = Some CreateLPD6803Strip /\
  parseType "lPd8806" = Some CreateLPD8806Strip /\
  parseType "APA102 " = None /\
  parseType "" = None.
Proof. repeat split. Qed.

Example atoi_samples :
  LibC.atoi "16" = 16 /\ LibC.atoi " -3x" = -3 /\ LibC.atoi "fast" = 0.
Proof. repeat split. Qed.

(** Beyond the range of [int]: the low 32 bits of the clamped [long]. *)
Example atoi_out_of_range :
  LibC.atoi "4294967297" = 1 /\
  LibC.atoi "4294967295" = -1 /\
  LibC.atoi "-4294967295" = 1 /\
  LibC.atoi "2147483648" = -2147483648 /\
  LibC.atoi "99999999999999999999" = -1.
Proof. repeat split. Qed.

Example sscanf_out_of_range :
  LibC.sscanf_d_comma_d "4294967297,7" (-1) (-1) = (2, 1, 7).
Proof. reflexivity. Qed.

(** [-c 4294967297] is a clock rate of 1. *)
Example clock_wraps_into_range :
  configured_clock [("c"%char, "4294967297"%string)] = 1.
Proof. reflexivity. Qed.

Example sscanf_samples :
  LibC.sscanf_d_comma_d "3,4" (-1) (-1) = (2, 3, 4) /\
  LibC.sscanf_d_comma_d "5" (-1) (-1) = (1, 5, -1) /\
  LibC.sscanf_d_comma_d "5," (-1) (-1) = (1, 5, -1) /\
  LibC.sscanf_d_comma_d ",5" (-1) (-1) = (0, -1, -1) /\
  LibC.sscanf_d_comma_d "" (-1) (-1) = (LibC.EOF, -1, -1).
Proof. repeat split. Qed.

(** The scenario [-T APA102 -c 4 -S 2 -L 3], run as root. *)
Example main_sample :
  main bench_pins bench_options bench_server "pp"
    [("T"%char, "APA102"%string); ("c"%char, "4"%string);
     ("S"%char, "2"%string); ("L"%char, "3"%string)] 0 [] =
  (Done SleepForever,
   [EvCreateDirectMultiSPI 4;
    EvStripFactory CreateAPA102Strip 0%nat 101 3;
    EvStripFactory CreateAPA102Strip 0%nat 102 3;
    EvStartPixelPusherServer
      {| network_interface := "eth0"; udp_packet_size := 1460; group := 0;
         controller := 0; artnet_universe := -1; artnet_channel := -1 |}
      bench_device]).
Proof. reflexivity. Qed.

(** [-S 1 -u 70000] as root with the library of the specification: the
    server does not start and [main] returns 1. *)
Example main_oversize_packet :
  main bench_pins spec_PPOptions (spec_server true) "pp"
    [("S"%char, "1"%string); ("u"%char, "70000"%string)] 0 [] =
  (Done (Return 1),
   [EvCreateDirectMultiSPI 4;
    EvStripFactory CreateAPA102Strip 0%nat 101 144;
    EvStartPixelPusherServer
      {| network_interface := "eth0"; udp_packet_size := 70000; group := 0;
         controller := 0; artnet_universe := -1; artnet_channel := -1 |}
      {| num_strips_ := 1; strip_len_ := 144; strips_ := [0%nat];
         spi_ := 0%nat |}]).
Proof. reflexivity. Qed.

(** Not root: nothing is built. *)
Example main_not_root :
  main bench_pins bench_options bench_server "pp" [] 1000 [] =
  (Done (Return 1), [EvStderr (msg_root "pp")]).
Proof. reflexivity. Qed.

(* ================================================================== *)
(** * The claims on concrete runs *)
(* ================================================================== *)

(** [SetPixel(5, 0, {1,2,3})] on a 2-strip device does nothing;
    [SetPixel(1, 2, green)] reaches the second strip only. *)
Lemma SetPixel_strip_index_witness :
  array_sized bench_device /\
  SetPixel bench_device 5 0 {| red := 1; green := 2; blue := 3 |} [] = (Done tt, []) /\
  SetPixel bench_device 1 2 pure_green [] =
    (Done tt, [EvLEDStripSetPixel 1%nat 2 0 255 0]).
Proof.
  split; [reflexivity|]. split.
  - destruct (SetPixel_strip_index bench_device 5 0
                {| red := 1; green := 2; blue := 3 |} [] eq_refl)
      as (t' & E & Hout & _).
    destruct Hout as [Ht _]; [right; cbn; lia|].
    rewrite Ht in E. exact E.
  - destruct (SetPixel_strip_index bench_device 1 2 pure_green [] eq_refl)
      as (t' & E & _ & Hin).
    destruct Hin as (s & Hs & Ht & _); [cbn; lia|].
    cbn in Hs. inversion Hs; subst s. rewrite Ht in E. exact E.
Defined.

(** The frame of the specification's scenario, with a stray write to
    strip 5: one commit, carrying the two writes that were staged. *)
Lemma FlushFrame_commits_staged_writes_witness :
  array_sized bench_device /\
  forallb is_set_pixel
    [CallSetPixel 0 1 pure_red; CallSetPixel 1 2 pure_green;
     CallSetPixel 5 0 pure_red] = true /\
  committed (bus_view 0%nat
    (snd (serve bench_device
            ([CallSetPixel 0 1 pure_red; CallSetPixel 1 2 pure_green;
              CallSetPixel 5 0 pure_red] ++ [CallFlushFrame]) []))) =
  [[ {| to_strip := 0%nat; at_pixel := 1; r_value := 255; g_value := 0; b_value := 0 |};
     {| to_strip := 1%nat; at_pixel := 2; r_value := 0; g_value := 255; b_value := 0 |} ]].
Proof.
  split; [reflexivity|]. split; [reflexivity|].
  destruct (FlushFrame_commits_staged_writes bench_device
              [CallSetPixel 0 1 pure_red; CallSetPixel 1 2 pure_green;
               CallSetPixel 5 0 pure_red] [] eq_refl eq_refl)
    as (r1 & t1 & r2 & t2 & _ & _ & E2 & _ & C2 & _).
  rewrite E2. exact C2.
Defined.

Lemma topology_constant_witness :
  SpixelsDevice_ctor bench_pins 4 (Some CreateAPA102Strip) 2 3 [] =
    (Done bench_device,
     [EvCreateDirectMultiSPI 4;
      EvStripFactory CreateAPA102Strip 0%nat 101 3;
      EvStripFactory CreateAPA102Strip 0%nat 102 3]) /\
  num_strips bench_device = 2 /\ num_pixel_per_strip bench_device = 3 /\
  fst (serve bench_device
         [CallSetPixel 0 1 pure_red; CallNumStrips; CallFlushFrame;
          CallNumPixelPerStrip] []) =
    Done (bench_device, [None; Some 2; None; Some 3]).
Proof.
  assert (H : SpixelsDevice_ctor bench_pins 4 (Some CreateAPA102Strip) 2 3 [] =
              (Done bench_device,
               [EvCreateDirectMultiSPI 4;
                EvStripFactory CreateAPA102Strip 0%nat 101 3;
                EvStripFactory CreateAPA102Strip 0%nat 102 3])) by reflexivity.
  split; [exact H|].
  destruct (topology_constant bench_pins 4 (Some CreateAPA102Strip) 2 3 []
              bench_device _ H) as (HN & HL & Hserve).
  split; [exact HN|]. split; [exact HL|].
  destruct (Hserve [CallSetPixel 0 1 pure_red; CallNumStrips; CallFlushFrame;
                    CallNumPixelPerStrip] []) as (t2 & E).
  rewrite E. reflexivity.
Defined.

Lemma ctor_creates_bus_then_strips_witness :
  0 <= 2 /\
  exists this t',
    SpixelsDevice_ctor bench_pins 4 (Some CreateAPA102Strip) 2 3 [] = (Done this, t') /\
    t' = [EvCreateDirectMultiSPI 4;
          EvStripFactory CreateAPA102Strip 0%nat 101 3;
          EvStripFactory CreateAPA102Strip 0%nat 102 3] /\
    strips_ this = [0%nat; 1%nat].
Proof.
  split; [lia|].
  destruct (ctor_creates_bus_then_strips bench_pins 4 CreateAPA102Strip 2 3 [])
    as (this & t' & E & Et & _ & _ & _ & Hs); [lia|].
  exists this, t'. split; [exact E|]. split; [exact Et|exact Hs].
Defined.

(** [-c 0] and [-c 16]. *)
Lemma clock_out_of_range_refused_witness :
  (configured_clock [("c"%char, "0"%string)] < 1 /\
   exists msgs,
     main bench_pins bench_options bench_server "pp" [("c"%char, "0"%string)] 0 [] =
       (Done (Return 1), msgs) /\ constructs_nothing msgs = true) /\
  (15 < configured_clock [("c"%char, "16"%string)] /\
   exists msgs,
     main bench_pins bench_options bench_server "pp" [("c"%char, "16"%string)] 0 [] =
       (Done (Return 1), msgs) /\ constructs_nothing msgs = true).
Proof.
  split.
  - split; [reflexivity|].
    destruct (clock_out_of_range_refused bench_pins bench_options bench_server
                "pp" [("c"%char, "0"%string)] 0 [])
      as (msgs & E & _ & _ & Hn & _); [left; reflexivity|].
    exists msgs. split; [exact E|exact Hn].
  - split; [reflexivity|].
    destruct (clock_out_of_range_refused bench_pins bench_options bench_server
                "pp" [("c"%char, "16"%string)] 0 [])
      as (msgs & E & _ & _ & Hn & _); [right; reflexivity|].
    exists msgs. split; [exact E|exact Hn].
Defined.

(** [-T WS2812]. *)
Lemma unknown_type_refused_witness :
  configured_type [("T"%char, "WS2812"%string)] = Some "WS2812"%string /\
  parseType "WS2812" = None /\
  exists msgs,
    main bench_pins bench_options bench_server "pp"
      [("T"%char, "WS2812"%string)] 0 [] = (Done (Return 1), msgs) /\
    constructs_nothing msgs = true.
Proof.
  split; [reflexivity|]. split; [reflexivity|].
  destruct (unknown_type_refused bench_pins bench_options bench_server
              "pp" [("T"%char, "WS2812"%string)] 0 [] "WS2812"
              eq_refl eq_refl)
    as (msgs & E & _ & _ & Hn & _).
  exists msgs. split; [exact E|exact Hn].
Defined.

(** [-a 5]. *)
Lemma malformed_artnet_refused_witness :
  In ("a"%char, "5"%string) [("a"%char, "5"%string)] /\
  LibC.parses_both "5" = false /\
  main bench_pins bench_options bench_server "pp" [("a"%char, "5"%string)] 0 [] =
    (Done (Return 1), [EvStderr msg_artnet]).
Proof.
  split; [left; reflexivity|]. split; [reflexivity|].
  destruct (malformed_artnet_refused bench_pins bench_options bench_server
              "pp" [("a"%char, "5"%string)] 0 [] "5"
              (or_introl eq_refl) eq_refl) as (_ & Hmsg).
  exact (Hmsg [] [] (initial_locals bench_options) eq_refl eq_refl).
Defined.


(** A device without strips. *)
Lemma ctor_accepts_any_count_from_zero_witness :
  0 <= 0 /\
  exists this t',
    SpixelsDevice_ctor bench_pins 4 (Some CreateAPA102Strip) 0 144 [] = (Done this, t') /\
    num_strips this = 0 /\ num_pixel_per_strip this = 144 /\
    SetPixel this 0 0 pure_red t' = (Done tt, t').
Proof.
  split; [lia|].
  destruct (ctor_accepts_any_count_from_zero bench_pins 4 CreateAPA102Strip 0 144 [])
    as (this & t' & E & HN & HL & _ & _ & Hnop); [lia|].
  exists this, t'. split; [exact E|]. split; [exact HN|]. split; [exact HL|].
  apply Hnop. reflexivity.
Defined.

(** The claim C10 as stated fails at strip count -1: [new LEDStrip*[-1]]
    throws, the constructor does not return a device, and no bus was
    created. *)
Lemma ctor_negative_count_throws :
  SpixelsDevice_ctor bench_pins 4 (Some CreateAPA102Strip) (-1) 144 [] =
    (Raised bad_array_new_length, []) /\
  ~ (exists this t',
       SpixelsDevice_ctor bench_pins 4 (Some CreateAPA102Strip) (-1) 144 [] =
         (Done this, t')).
Proof.
  split; [reflexivity|].
  intros (this & t' & H). discriminate H.
Qed.

(* ================================================================== *)
(** * The further properties on concrete runs *)
(* ================================================================== *)

Lemma dtor_releases_strips_then_bus_witness :
  array_sized bench_device /\
  SpixelsDevice_dtor bench_device =
    Done [DeleteStrip 0%nat; DeleteStrip 1%nat; DeleteArray; DeleteSPI 0%nat].
Proof.
  split; [reflexivity|].
  destruct (dtor_releases_strips_then_bus bench_device eq_refl)
    as (released & E & -> & _).
  exact E.
Defined.

Lemma ctor_then_dtor_releases_what_was_created_witness :
  0 <= 2 /\
  exists this t' released,
    SpixelsDevice_ctor bench_pins 4 (Some CreateAPA102Strip) 2 3 [] = (Done this, t') /\
    SpixelsDevice_dtor this = Done (released ++ [DeleteArray; DeleteSPI 0%nat]) /\
    NoDup released /\
    (In (DeleteStrip 1%nat) released <-> (0 <= 1 < strips_created t')%nat).
Proof.
  split; [lia|].
  destruct (ctor_then_dtor_releases_what_was_created bench_pins 4
              CreateAPA102Strip 2 3 [])
    as (this & t' & released & E & D & _ & ND & Hin & _); [lia|].
  exists this, t', released.
  split; [exact E|]. split; [exact D|]. split; [exact ND|]. exact (Hin 1%nat).
Defined.

(** Index 1 of a 2-strip device is the strip on connector 2. *)
Lemma strip_index_is_connector_witness :
  SpixelsDevice_ctor bench_pins 4 (Some CreateAPA102Strip) 2 3 [] =
    (Done bench_device,
     [EvCreateDirectMultiSPI 4;
      EvStripFactory CreateAPA102Strip 0%nat 101 3;
      EvStripFactory CreateAPA102Strip 0%nat 102 3]) /\
  exists s,
    nth_error (strips_ bench_device) 1 = Some s /\
    created_strip
      [EvCreateDirectMultiSPI 4;
       EvStripFactory CreateAPA102Strip 0%nat 101 3;
       EvStripFactory CreateAPA102Strip 0%nat 102 3] s =
    Some (EvStripFactory CreateAPA102Strip 0%nat (bench_pins 2) 3).
Proof.
  assert (H : SpixelsDevice_ctor bench_pins 4 (Some CreateAPA102Strip) 2 3 [] =
              (Done bench_device,
               [EvCreateDirectMultiSPI 4;
                EvStripFactory CreateAPA102Strip 0%nat 101 3;
                EvStripFactory CreateAPA102Strip 0%nat 102 3])) by reflexivity.
  split; [exact H|].
  destruct (strip_index_is_connector bench_pins 4 CreateAPA102Strip 2 3 []
              bench_device _ H) as (_ & Hidx).
  destruct (Hidx 1) as (s & Hs & Hc); [lia|].
  exists s. split; [exact Hs|exact Hc].
Defined.

Lemma SetPixel_leaves_other_indices_witness :
  SpixelsDevice_ctor bench_pins 4 (Some CreateAPA102Strip) 2 3 [] =
    (Done bench_device,
     [EvCreateDirectMultiSPI 4;
      EvStripFactory CreateAPA102Strip 0%nat 101 3;
      EvStripFactory CreateAPA102Strip 0%nat 102 3]) /\
  0 <= 1 < 2 /\ 0 <> 1 /\
  exists sj,
    nth_error (strips_ bench_device) 1 = Some sj /\
    staged sj (snd (SetPixel bench_device 0 1 pure_red [])) = staged sj [].
Proof.
  assert (H : SpixelsDevice_ctor bench_pins 4 (Some CreateAPA102Strip) 2 3 [] =
              (Done bench_device,
               [EvCreateDirectMultiSPI 4;
                EvStripFactory CreateAPA102Strip 0%nat 101 3;
                EvStripFactory CreateAPA102Strip 0%nat 102 3])) by reflexivity.
  split; [exact H|]. split; [lia|]. split; [lia|].
  apply (SetPixel_leaves_other_indices bench_pins 4 CreateAPA102Strip 2 3 []
           bench_device _ 0 1 1 pure_red [] H); lia.
Defined.

(** Interleaved writes to two strips and one to a strip that is not
    there: strip 1 has its own two, in order. *)
Lemma serve_stages_in_call_order_witness :
  array_sized bench_device /\
  staged 1%nat
    (snd (serve bench_device
            [CallSetPixel 1 0 pure_red; CallSetPixel 0 0 pure_green;
             CallSetPixel 1 2 pure_green; CallSetPixel 7 0 pure_red] [])) =
  [ {| to_strip := 1%nat; at_pixel := 0; r_value := 255; g_value := 0; b_value := 0 |};
    {| to_strip := 1%nat; at_pixel := 2; r_value := 0; g_value := 255; b_value := 0 |} ].
Proof.
  split; [reflexivity|].
  exact (serve_stages_in_call_order bench_device
           [CallSetPixel 1 0 pure_red; CallSetPixel 0 0 pure_green;
            CallSetPixel 1 2 pure_green; CallSetPixel 7 0 pure_red] [] 1%nat eq_refl).
Defined.

(** Two flushes with nothing staged: two commits. *)
Lemma every_FlushFrame_commits_witness :
  array_sized bench_device /\
  List.length
    (committed (bus_view 0%nat
       (snd (serve bench_device
               [CallFlushFrame; CallNumStrips; CallFlushFrame] [])))) = 2%nat.
Proof.
  split; [reflexivity|].
  exact (proj1 (every_FlushFrame_commits bench_device
                  [CallFlushFrame; CallNumStrips; CallFlushFrame] [] eq_refl)).
Defined.

Lemma frames_reach_the_bus_in_order_witness :
  array_sized bench_device /\
  forallb is_set_pixel [CallSetPixel 0 1 pure_red; CallSetPixel 9 0 pure_red] = true /\
  forallb is_set_pixel [CallSetPixel 1 2 pure_green] = true /\
  snd (serve bench_device
         ([CallSetPixel 0 1 pure_red; CallSetPixel 9 0 pure_red]
          ++ [CallFlushFrame] ++ [CallSetPixel 1 2 pure_green]
          ++ [CallFlushFrame]) []) =
  [EvLEDStripSetPixel 0%nat 1 255 0 0; EvSendBuffers 0%nat;
   EvLEDStripSetPixel 1%nat 2 0 255 0; EvSendBuffers 0%nat].
Proof.
  split; [reflexivity|]. split; [reflexivity|]. split; [reflexivity|].
  rewrite (frames_reach_the_bus_in_order bench_device
             [CallSetPixel 0 1 pure_red; CallSetPixel 9 0 pure_red]
             [CallSetPixel 1 2 pure_green] [] eq_refl eq_refl eq_refl).
  reflexivity.
Defined.

(** [-T bogus -T ws2801 -c 8 -S 2 -L 3 -a 1,2 -u 70000] as root: the
    last [-T] counts. *)
Lemma main_builds_configured_device_witness :
  forallb accepts
    [("T"%char, "bogus"%string); ("T"%char, "ws2801"%string);
     ("c"%char, "8"%string); ("S"%char, "2"%string); ("L"%char, "3"%string);
     ("a"%char, "1,2"%string); ("u"%char, "70000"%string)] = true /\
  main bench_pins bench_options bench_server "pp"
    [("T"%char, "bogus"%string); ("T"%char, "ws2801"%string);
     ("c"%char, "8"%string); ("S"%char, "2"%string); ("L"%char, "3"%string);
     ("a"%char, "1,2"%string); ("u"%char, "70000"%string)] 0 [] =
  (Done SleepForever,
   [EvCreateDirectMultiSPI 8;
    EvStripFactory CreateWS2801Strip 0%nat 101 3;
    EvStripFactory CreateWS2801Strip 0%nat 102 3;
    EvStartPixelPusherServer
      {| network_interface := "eth0"; udp_packet_size := 70000; group := 0;
         controller := 0; artnet_universe := 1; artnet_channel := 2 |}
      bench_device]).
Proof.
  split; [reflexivity|].
  refine (main_builds_configured_device bench_pins bench_options bench_server "pp"
            [("T"%char, "bogus"%string); ("T"%char, "ws2801"%string);
             ("c"%char, "8"%string); ("S"%char, "2"%string); ("L"%char, "3"%string);
             ("a"%char, "1,2"%string); ("u"%char, "70000"%string)] []
            CreateWS2801Strip eq_refl eq_refl _ _).
  - split; discriminate.
  - discriminate.
Defined.

(** An unknown type with a bad clock as a plain user; a bad clock as a
    plain user; a plain user. *)
Lemma main_checks_in_order_witness :
  (forallb accepts [("T"%char, "bogus"%string); ("c"%char, "99"%string)] = true /\
   main bench_pins bench_options bench_server "pp"
     [("T"%char, "bogus"%string); ("c"%char, "99"%string)] 1000 [] =
   (Done (Return 1), [EvStderr msg_type])) /\
  (forallb accepts [("c"%char, "99"%string)] = true /\
   main bench_pins bench_options bench_server "pp"
     [("c"%char, "99"%string)] 1000 [] =
   (Done (Return 1), [EvStderr msg_clock])) /\
  (forallb accepts [] = true /\
   main bench_pins bench_options bench_server "pp" [] 1000 [] =
   (Done (Return 1), [EvStderr (msg_root "pp")])).
Proof.
  split; [|split].
  - split; [reflexivity|].
    exact (proj1 (main_checks_in_order bench_pins bench_options bench_server "pp"
                    [("T"%char, "bogus"%string); ("c"%char, "99"%string)] 1000 []
                    eq_refl) eq_refl).
  - split; [reflexivity|].
    refine (proj1 (proj2 (main_checks_in_order bench_pins bench_options
                            bench_server "pp" [("c"%char, "99"%string)] 1000 []
                            eq_refl)) _ _).
    + discriminate.
    + right. reflexivity.
  - split; [reflexivity|].
    refine (proj2 (proj2 (main_checks_in_order bench_pins bench_options
                            bench_server "pp" [] 1000 [] eq_refl)) _ _ _).
    + discriminate.
    + split; discriminate.
    + discriminate.
Defined.

(** [-S 2 -x -a junk]: the usage text, not the Artnet line. *)
Lemma unknown_option_prints_usage_witness :
  forallb accepts [("S"%char, "2"%string)] = true /\
  known_flag "x" = false /\
  main bench_pins bench_options bench_server "pp"
    ([("S"%char, "2"%string)] ++ ("x"%char, ""%string)
       :: [("a"%char, "junk"%string)]) 0 [] =
  (Done (Return 1), [EvStderr (usage_line "pp"); EvStderr usage_options]).
Proof.
  split; [reflexivity|]. split; [reflexivity|].
  exact (unknown_option_prints_usage bench_pins bench_options bench_server "pp"
           [("S"%char, "2"%string)] "x" "" [("a"%char, "junk"%string)] 0 []
           eq_refl eq_refl).
Defined.

Lemma not_root_builds_nothing_witness :
  1000 <> 0 /\
  exists msgs,
    main bench_pins bench_options bench_server "pp"
      [("S"%char, "2"%string)] 1000 [] = (Done (Return 1), msgs) /\
    constructs_nothing msgs = true.
Proof.
  split; [discriminate|].
  destruct (not_root_builds_nothing bench_pins bench_options bench_server "pp"
              [("S"%char, "2"%string)] 1000 [])
    as (msgs & E & _ & _ & Hn); [discriminate|].
  exists msgs. split; [exact E|exact Hn].
Defined.

(** [-S -1] as root. *)
Lemma negative_strip_count_throws_witness :
  forallb accepts [("S"%char, "-1"%string)] = true /\
  setting "S" LibC.atoi 16 [("S"%char, "-1"%string)] < 0 /\
  main bench_pins bench_options bench_server "pp" [("S"%char, "-1"%string)] 0 [] =
    (Raised bad_array_new_length, []).
Proof.
  split; [reflexivity|]. split; [reflexivity|].
  refine (negative_strip_count_throws bench_pins bench_options bench_server "pp"
            [("S"%char, "-1"%string)] [] eq_refl _ _ _).
  - discriminate.
  - split; discriminate.
  - reflexivity.
Defined.
